(** * html2pdf: the compression adapter, the render adapter and the router

    A shallow embedding of [src/compressutil.js], [src/generator.js] and
    [src/server.js].  The JavaScript built-ins the three files rely on are
    modelled first (module [JS]); the asynchronous collaborators (the
    Ghostscript child process and the Puppeteer page) are oracles whose
    calls are recorded in a trace. *)

From Stdlib Require Import ZArith List String Ascii Bool Lia SpecFloat DecimalString.
Import ListNotations.

Local Open Scope string_scope.
Local Open Scope Z_scope.
Local Open Scope list_scope.

(** ** The JavaScript built-ins used by the service *)

Module JS.

(** A Number is an IEEE 754 binary64 value.  [spec_float] carries the two
    zeros, the two infinities and NaN; comparisons are [SFcompare]. *)
Definition number : Type := spec_float.

Definition prec : Z := 53.
Definition emax : Z := 1024.

Definition NaN : number := S754_nan.
Definition pInfinity : number := S754_infinity false.
Definition nInfinity : number := S754_infinity true.

(** The Number nearest to an integer (round to nearest, ties to even). *)
Definition Number_of_Z (z : Z) : number := binary_normalize prec emax z 0 false.

Definition isNaN (x : number) : bool :=
  match x with S754_nan => true | _ => false end.

(** [a <= x <= b] on Numbers; false as soon as one side is NaN. *)
Definition between (a b x : number) : bool := SFleb a x && SFleb x b.

(** A string is a sequence of code units; the model covers the code units
    below 256, one [ascii] each. *)
Definition code (c : ascii) : Z := Z.of_nat (nat_of_ascii c).

(** StrWhiteSpaceChar, restricted to code units below 256: TAB, LF, VT, FF,
    CR, SP and NBSP. *)
Definition is_white (c : ascii) : bool :=
  let n := code c in
  ((9 <=? n) && (n <=? 13)) || (n =? 32) || (n =? 160).

Fixpoint trim_start (l : list ascii) : list ascii :=
  match l with
  | c :: r => if is_white c then trim_start r else l
  | [] => []
  end.

Definition trim (l : list ascii) : list ascii :=
  rev (trim_start (rev (trim_start l))).

(** The value of a digit in a radix up to 36, when it is one. *)
Definition digit_val (R : Z) (c : ascii) : option Z :=
  let n := code c in
  let v := if (48 <=? n) && (n <=? 57) then n - 48
           else if (97 <=? n) && (n <=? 122) then n - 87
           else if (65 <=? n) && (n <=? 90) then n - 55
           else 36 in
  if v <? R then Some v else None.

(** The longest prefix of radix-[R] digits, as digit values, and the rest. *)
Fixpoint take_digits (R : Z) (l : list ascii) : list Z * list ascii :=
  match l with
  | c :: r =>
      match digit_val R c with
      | Some v => let (ds, rest) := take_digits R r in (v :: ds, rest)
      | None => ([], l)
      end
  | [] => ([], [])
  end.

Definition digits_value (R : Z) (ds : list Z) : Z :=
  fold_left (fun acc d => acc * R + d) ds 0.

Definition strip_sign (l : list ascii) : bool * list ascii :=
  match l with
  | "-"%char :: r => (true, r)
  | "+"%char :: r => (false, r)
  | _ => (false, l)
  end.

(** [parseInt(string, radix)] (ECMAScript 19.2.5) for an integer radix:
    radix 0 stands for 10, the prefix 0x is stripped for radix 0 and 16
    only, and the digits are read up to the first character that is not
    one. *)
Definition parseInt (input : string) (radix : Z) : number :=
  let (neg, S1) := strip_sign (trim_start (list_ascii_of_string input)) in
  if negb (radix =? 0) && ((radix <? 2) || (36 <? radix)) then NaN else
  let stripPrefix := (radix =? 0) || (radix =? 16) in
  let (R, S2) :=
    match S1 with
    | "0"%char :: x :: r =>
        if stripPrefix && ((code x =? 120) || (code x =? 88))
        then (16, r)
        else (if radix =? 0 then 10 else radix, S1)
    | _ => (if radix =? 0 then 10 else radix, S1)
    end in
  let (ds, _) := take_digits R S2 in
  match ds with
  | [] => NaN
  | _ => binary_normalize prec emax
           (if neg then - digits_value R ds else digits_value R ds) 0 neg
  end.

(** The Number nearest to [n / d], the sign being [neg]: the quotient is
    taken with more than 64 significant bits and the remainder decides the
    rounding direction. *)
Definition round_ratio (neg : bool) (n d : positive) : number :=
  let s := Z.of_nat (Pos.size_nat d) + 64 in
  let (q, r) := Z.div_eucl (Z.shiftl (Zpos n) s) (Zpos d) in
  binary_round_aux prec emax neg q (- s) (new_location (Zpos d) r).

(** The Number nearest to [m * 10^e], signed by [neg]. *)
Definition round_decimal (neg : bool) (m e : Z) : number :=
  match m with
  | Zpos p =>
      if 0 <=? e
      then binary_normalize prec emax
             (if neg then - (m * 10 ^ e) else m * 10 ^ e) 0 neg
      else round_ratio neg p (Z.to_pos (10 ^ (- e)))
  | _ => S754_zero neg
  end.

(** ExponentPart at the end of a literal: [Some] of the exponent, when the
    rest of the literal is empty or a well-formed exponent part. *)
Definition exponent_part (l : list ascii) : option Z :=
  match l with
  | [] => Some 0
  | c :: r =>
      if (code c =? 101) || (code c =? 69) then
        let (neg, r1) := strip_sign r in
        match take_digits 10 r1 with
        | ((_ :: _) as ds, []) =>
            Some (if neg then - digits_value 10 ds else digits_value 10 ds)
        | _ => None
        end
      else None
  end.

(** StrUnsignedDecimalLiteral other than Infinity. *)
Definition unsigned_decimal (neg : bool) (l : list ascii) : number :=
  let (ip, r1) := take_digits 10 l in
  let '(dot, fp, r2) :=
    match r1 with
    | "."%char :: r => let (fp, r2) := take_digits 10 r in (true, fp, r2)
    | _ => (false, [], r1)
    end in
  match ip, fp with
  | [], [] => NaN
  | _, _ =>
      match exponent_part r2 with
      | Some e =>
          round_decimal neg (digits_value 10 (ip ++ fp))
                        (e - Z.of_nat (List.length fp))
      | None => NaN
      end
  end.

(** A literal that is a prefix 0x, 0o or 0b followed by digits only. *)
Definition non_decimal (R : Z) (l : list ascii) : number :=
  match take_digits R l with
  | ((_ :: _) as ds, []) => Number_of_Z (digits_value R ds)
  | _ => NaN
  end.

(** StringToNumber (ECMAScript 7.1.4.1.1). *)
Definition StringToNumber (s : string) : number :=
  match trim (list_ascii_of_string s) with
  | [] => S754_zero false
  | ("0"%char :: x :: r) as l =>
      let n := code x in
      if (n =? 120) || (n =? 88) then non_decimal 16 r
      else if (n =? 111) || (n =? 79) then non_decimal 8 r
      else if (n =? 98) || (n =? 66) then non_decimal 2 r
      else unsigned_decimal false l
  | l =>
      let (neg, r) := strip_sign l in
      if String.eqb (string_of_list_ascii r) "Infinity"
      then S754_infinity neg
      else unsigned_decimal neg r
  end.

(** The primitive values a JSON request can put in a scalar field, and
    [undefined] for an absent one.  Arrays and other objects are not values
    of the model: a scalar field that holds one is outside what the
    statements below cover. *)
Inductive value : Type :=
| Undefined
| Null
| Bool (b : bool)
| Number (x : number)
| Str (s : string).

Definition ToNumber (v : value) : number :=
  match v with
  | Undefined => NaN
  | Null => S754_zero false
  | Bool true => Number_of_Z 1
  | Bool false => S754_zero false
  | Number x => x
  | Str s => StringToNumber s
  end.

Definition ToBoolean (v : value) : bool :=
  match v with
  | Undefined | Null => false
  | Bool b => b
  | Number (S754_zero _) | Number S754_nan => false
  | Number _ => true
  | Str "" => false
  | Str _ => true
  end.

(** [x == y] (IsLooselyEqual) on primitives: same types compare strictly,
    null and undefined equal each other, a Boolean is converted to a Number
    first and a String facing a Number is converted with StringToNumber. *)
Definition loose_eq (x y : value) : bool :=
  match x, y with
  | Undefined, Undefined | Undefined, Null | Null, Undefined | Null, Null => true
  | Bool a, Bool b => Bool.eqb a b
  | Number a, Number b => SFeqb a b
  | Str a, Str b => String.eqb a b
  | Number a, Str s => SFeqb a (StringToNumber s)
  | Str s, Number b => SFeqb (StringToNumber s) b
  | Bool a, Number b => SFeqb (ToNumber (Bool a)) b
  | Bool a, Str s => SFeqb (ToNumber (Bool a)) (StringToNumber s)
  | Number a, Bool b => SFeqb a (ToNumber (Bool b))
  | Str s, Bool b => SFeqb (StringToNumber s) (ToNumber (Bool b))
  | _, _ => false
  end.

(** A formal parameter with a default value takes it for [undefined] only. *)
Definition default (d v : value) : value :=
  match v with Undefined => d | _ => v end.

(** [Math.min] and [Math.max] on the coerced arguments (ECMAScript
    21.3.2.24-25): NaN as soon as one argument is NaN. *)
Fixpoint min_from (lowest : number) (coerced : list number) : number :=
  match coerced with
  | [] => lowest
  | x :: rest =>
      if isNaN x then NaN else
      let lowest1 := match x, lowest with
                     | S754_zero true, S754_zero false => x
                     | _, _ => lowest
                     end in
      min_from (if SFltb x lowest1 then x else lowest1) rest
  end.

Fixpoint max_from (highest : number) (coerced : list number) : number :=
  match coerced with
  | [] => highest
  | x :: rest =>
      if isNaN x then NaN else
      let highest1 := match x, highest with
                      | S754_zero false, S754_zero true => x
                      | _, _ => highest
                      end in
      max_from (if SFltb highest1 x then x else highest1) rest
  end.

Definition Math_min (args : list value) : number :=
  min_from pInfinity (map ToNumber args).

Definition Math_max (args : list value) : number :=
  max_from nInfinity (map ToNumber args).

(** [s.indexOf(t)]: the first position of [t] in [s], or -1. *)
Definition indexOf (s t : string) : Z :=
  match String.index 0 t s with
  | Some i => Z.of_nat i
  | None => -1
  end.

(** [s.includes(t)]. *)
Definition includes (s t : string) : bool := negb (indexOf s t =? -1).

(** The decimal digits of an integer, as a template literal prints it. *)
Definition Z_toString (z : Z) : string := NilZero.string_of_int (Z.to_int z).

End JS.

Import JS.

(** ** Data shared by the three source files *)

(** A Buffer (or Uint8Array): a sequence of bytes. *)
Definition buffer : Type := list Byte.byte.

(** [Buffer.concat(chunks)]. *)
Definition Buffer_concat (chunks : list buffer) : buffer := List.concat chunks.

(** A thrown value.  [Error] is what the service and its collaborators
    raise; [TypeError] is raised by the engine on an ill-typed call. *)
Inductive error : Type :=
| Error (message : string)
| TypeError (message : string).

(** One argument of the Ghostscript command line: a string literal, or a
    template literal made of a fixed prefix and an interpolated Number. *)
Inductive arg : Type :=
| lit (s : string)
| tpl (prefix : string) (x : number).

(** A JSON document, as the payload of an interception rule. *)
#[warnings="-register-all"] Inductive json : Type :=
| j_null
| j_bool (b : bool)
| j_number (x : number)
| j_string (s : string)
| j_array (items : list json)
| j_object (fields : list (string * json)).

(** The text produced by [JSON.stringify(j)], kept as the document it
    serializes. *)
Inductive json_text : Type :=
| JSON_stringify (j : json).

(** An interception rule [{apiUrl, apiBody}]. *)
Record rule : Type := { apiUrl : string; apiBody : json }.

(** A cookie descriptor; the service hands it to the page untouched. *)
Definition cookie : Type := list (string * value).

(** A parameter holding an array or an object: it may also be [undefined]
    (absent) or [null]. *)
Inductive ref (A : Type) : Type :=
| r_undefined
| r_null
| r_some (a : A).
Arguments r_undefined {A}.
Arguments r_null {A}.
Arguments r_some {A} a.

(** The [pdfOptions] object of [generatePdf]. *)
Record pdf_options : Type :=
  { o_compression : value; o_dpi : value; o_quality : value }.

(** The options of [page.goto] and of [page.pdf]. *)
Record goto_options : Type :=
  { g_timeout : value; g_waitUntil : list string }.

Record print_options : Type :=
  { p_printBackground : bool; p_format : string; p_landscape : bool;
    p_timeout : value }.

(** ** Collaborators and the trace of their calls *)

(** The calls the service makes on the child process and on the page. *)
Inductive call : Type :=
| spawn (command : string) (args : list arg)
| stdin_write (data : buffer)
| stdin_end
| newPage
| setCookie (cookies : list cookie)
| setRequestInterception (enabled : bool)
| on_request (requests : list rule)
| waitForSelector (selector : value)
| goto (url : string) (options : goto_options)
| pdf (options : print_options)
| close.

(** How a call ended: it returned (its promise resolved), it threw (its
    promise rejected), or its promise never settled. *)
Inductive status : Type := returned | threw | pending.

Record entry : Type := { what : call; how : status }.

Definition trace : Type := list entry.

(** What the child process emits, in order of arrival: output, diagnostics,
    the 'error' and 'close' events of the process, and the 'error' event of
    its standard input, the stream [pdfBuffer] is written to (a write to a
    child that has gone fails with EPIPE). *)
Inductive gs_event : Type :=
| stdout_data (chunk : buffer)
| stderr_data (errorData : string)
| error_event (message : string)
| close_event (exitCode : option Z)
| stdin_error (message : string).

(** The result of an awaited operation. *)
Inductive outcome (A : Type) : Type :=
| Ret (a : A)
| Throw (e : error)
| Hang.
Arguments Ret {A} a.
Arguments Throw {A} e.
Arguments Hang {A}.

Definition status_of {A} (o : outcome A) : status :=
  match o with Ret _ => returned | Throw _ => threw | Hang => pending end.

(** The world outside the service.  Every reply may depend on all the
    calls made so far. *)
Record world : Type :=
  { child_events : trace -> list gs_event;
    page_reply : trace -> call -> outcome unit;
    pdf_reply : trace -> print_options -> outcome buffer }.

(** ** Computations: a trace is threaded, an exception or a promise that
    never settles ends the sequence *)

Definition M (A : Type) : Type := trace -> outcome A * trace.

Definition ret {A} (a : A) : M A := fun t => (Ret a, t).

Definition throw {A} (e : error) : M A := fun t => (Throw e, t).

Definition bind {A B} (m : M A) (k : A -> M B) : M B :=
  fun t =>
    match m t with
    | (Ret a, t1) => k a t1
    | (Throw e, t1) => (Throw e, t1)
    | (Hang, t1) => (Hang, t1)
    end.

(** [try { body } catch (e) { handler e }]: only an exception is caught. *)
Definition try_catch {A} (body : M A) (handler : error -> M A) : M A :=
  fun t =>
    match body t with
    | (Throw e, t1) => handler e t1
    | r => r
    end.

(** A call whose reply comes from the world; the call and the way it ended
    are appended to the trace. *)
Definition await {A} (c : call) (reply : trace -> outcome A) : M A :=
  fun t => let r := reply t in (r, t ++ [{| what := c; how := status_of r |}]).

(** A synchronous call that returns nothing. *)
Definition perform (c : call) : M unit :=
  await c (fun _ => Ret tt).

Declare Scope js_scope.
Delimit Scope js_scope with js.
Notation "x <- m ;; k" := (bind m (fun x => k))
  (at level 61, m at next level, right associativity) : js_scope.
Notation "m ;;; k" := (bind m (fun _ => k))
  (at level 61, right associativity) : js_scope.
Local Open Scope js_scope.

(** ** src/compressutil.js *)

(** The state the four event handlers of the promise share: the chunks
    pushed so far and the promise, which the first [resolve] or [reject]
    settles for good. *)
Record gs_state : Type :=
  { outputChunks : list buffer; settled : option (outcome buffer) }.

Definition settle (st : gs_state) (o : outcome buffer) : gs_state :=
  match settled st with
  | None => {| outputChunks := outputChunks st; settled := Some o |}
  | Some _ => st
  end.

(** The exit code as the template literal prints it. *)
Definition exitCode_toString (exitCode : option Z) : string :=
  match exitCode with
  | Some z => Z_toString z
  | None => "null"
  end.

Definition exit_message (exitCode : option Z) : string :=
  ("Ghostscript process exited with code " ++ exitCode_toString exitCode
   ++ ". Check the input PDF or Ghostscript configuration.")%string.

Definition spawn_message (message : string) : string :=
  ("Failed to execute Ghostscript: " ++ message)%string.

(** The handlers registered on stdout 'data', stderr 'data', 'error' and
    'close'.  No listener is registered on [gsProcess.stdin]: an 'error'
    event of that stream is thrown by the emitter, nothing catches it and
    the Node process ends, so a promise still pending at that moment never
    settles.  A promise settled before keeps its result; what becomes of
    the process afterwards is not followed. *)
Definition handle (st : gs_state) (ev : gs_event) : gs_state :=
  match ev with
  | stdout_data chunk =>
      {| outputChunks := outputChunks st ++ [chunk]; settled := settled st |}
  | stderr_data _ => st
  | error_event message => settle st (Throw (Error (spawn_message message)))
  | close_event exitCode =>
      match exitCode with
      | Some 0 => settle st (Ret (Buffer_concat (outputChunks st)))
      | _ => settle st (Throw (Error (exit_message exitCode)))
      end
  | stdin_error _ => settle st Hang
  end.

Definition gs_promise (events : list gs_event) : outcome buffer :=
  match settled (fold_left handle events
                   {| outputChunks := []; settled := None |}) with
  | Some o => o
  | None => Hang
  end.

(** The argument array of the Ghostscript call. *)
Definition gs_args (dpi jpegQuality : number) : list arg :=
  [ lit "-q";
    lit "-dSAFER";
    lit "-sDEVICE=pdfwrite";
    lit "-dDetectDuplicateImages=true";
    lit "-dCompatibilityLevel=1.4";
    lit "-dEmbedAllFonts=true";
    lit "-dSubsetFonts=true";
    lit "-dColorImageDownsampleType=/Bicubic";
    lit "-dGrayImageDownsampleType=/Bicubic";
    lit "-dMonoImageDownsampleType=/Bicubic";
    lit "-dDownsampleColorImages=true";
    lit "-dDownsampleGrayImages=true";
    lit "-dDownsampleMonoImages=true";
    tpl "-dColorImageResolution=" dpi;
    tpl "-dGrayImageResolution=" dpi;
    tpl "-dMonoImageResolution=" dpi;
    tpl "-dJPEGQuality=" jpegQuality;
    lit "-dNOPAUSE";
    lit "-dBATCH";
    lit "-sOutputFile=-";
    lit "-" ].

(** The first two statements of [compressPdfBuffer]: the values used from
    there on. *)
Definition used_dpi (dpi : value) : number :=
  let dpi := default (Number (Number_of_Z 150)) dpi in
  Math_max [Number (Number_of_Z 10);
            Number (Math_min [Number (Number_of_Z 600); dpi])].

Definition used_jpegQuality (jpegQuality : value) : number :=
  let jpegQuality := default (Number (Number_of_Z 95)) jpegQuality in
  Math_max [Number (Number_of_Z 1);
            Number (Math_min [Number (Number_of_Z 100); jpegQuality])].

(** [compressPdfBuffer(pdfBuffer, dpi = 150, jpegQuality = 95)].  The
    conversion of [pdfBuffer] to a Buffer changes no byte; the console
    output of the handlers and of the catch block is left out.  The write
    to the standard input of the child process and the end of that stream
    return at once; a failure of the write arrives later, as the event
    [stdin_error]. *)
Definition compressPdfBuffer (w : world) (pdfBuffer : buffer)
    (dpi jpegQuality : value) : M buffer :=
  let dpi := used_dpi dpi in
  let jpegQuality := used_jpegQuality jpegQuality in
  try_catch
    (let command := "gs" in
     let args := gs_args dpi jpegQuality in
     perform (spawn command args) ;;;
     perform (stdin_write pdfBuffer) ;;;
     perform stdin_end ;;;
     (fun t => (gs_promise (child_events w t), t)))
    (fun err => throw err).

(** ** src/generator.js *)

(** An intercepted request, as the handler sees it: its URL and whether
    another handler has already resolved it. *)
Record request : Type :=
  { r_url : string; r_isInterceptResolutionHandled : bool }.

Record mock_response : Type :=
  { m_status : Z; m_contentType : string; m_body : json_text }.

(** What the handler does with a request. *)
Inductive resolution : Type :=
| untouched
| respond (r : mock_response)
| continue.

(** The listener [generatePdf] registers for 'request'; [requests] is the
    parameter the closure captures. *)
Definition request_listener (requests : list rule)
    (interceptedRequest : request) : resolution :=
  if r_isInterceptResolutionHandled interceptedRequest then untouched else
  let interceptedUrl := r_url interceptedRequest in
  match find (fun r => includes interceptedUrl (apiUrl r)) requests with
  | Some m =>
      respond {| m_status := 200;
                 m_contentType := "application/json; charset=utf-8";
                 m_body := JSON_stringify (apiBody m) |}
  | None => continue
  end.

(** [if (url.indexOf('http') !== 0) url = `http://${url}`] on a string. *)
Definition normalize_url (url : string) : string :=
  if negb (indexOf url "http" =? 0) then ("http://" ++ url)%string else url.

(** The same statement on any primitive value: among these only a string
    has [indexOf].  (An array has an [indexOf] of its own; arrays are not
    values of the model.) *)
Definition normalized (url : value) : M string :=
  match url with
  | Str s => ret (normalize_url s)
  | Undefined =>
      throw (TypeError "Cannot read properties of undefined (reading 'indexOf')")
  | Null =>
      throw (TypeError "Cannot read properties of null (reading 'indexOf')")
  | Bool _ | Number _ => throw (TypeError "url.indexOf is not a function")
  end.

(** [!!requests?.length]. *)
Definition has_requests (requests : ref (list rule)) : bool :=
  match requests with
  | r_some l => negb (Nat.eqb (List.length l) 0)
  | _ => false
  end.

(** [pdfOptions != null && pdfOptions.compression == true]. *)
Definition wants_compression (pdfOptions : ref pdf_options) : bool :=
  match pdfOptions with
  | r_some o => loose_eq (o_compression o) (Bool true)
  | _ => false
  end.

Definition rules_of (requests : ref (list rule)) : list rule :=
  match requests with r_some l => l | _ => [] end.

Definition options_of (pdfOptions : ref pdf_options) : pdf_options :=
  match pdfOptions with
  | r_some o => o
  | _ => {| o_compression := Undefined; o_dpi := Undefined;
            o_quality := Undefined |}
  end.

(** [generatePdf(url, requestId, timeout = 70000, requests = [],
    cookies = null, waitForSelector = 'body', pdfOptions = null)].
    [trackTrace] and [console.log] are left out. *)
Definition generatePdf (w : world) (url : value) (requestId : string)
    (timeout : value) (requests : ref (list rule))
    (cookies : ref (list cookie)) (waitForSelector_ : value)
    (pdfOptions : ref pdf_options) : M buffer :=
  let timeout := default (Number (Number_of_Z 70000)) timeout in
  let waitForSelector_ := default (Str "body") waitForSelector_ in
  await newPage (fun t => page_reply w t newPage) ;;;
  try_catch
    (match cookies with
     | r_some cs => await (setCookie cs) (fun t => page_reply w t (setCookie cs))
     | _ => ret tt
     end ;;;
     (if has_requests requests then
        await (setRequestInterception true)
              (fun t => page_reply w t (setRequestInterception true)) ;;;
        perform (on_request (rules_of requests))
      else ret tt) ;;;
     url <- normalized url ;;
     await (waitForSelector waitForSelector_)
           (fun t => page_reply w t (waitForSelector waitForSelector_)) ;;;
     (let options := {| g_timeout := timeout;
                        g_waitUntil := ["networkidle0"; "domcontentloaded"] |} in
      await (goto url options) (fun t => page_reply w t (goto url options))) ;;;
     pdfBuffer <-
       (let options := {| p_printBackground := true; p_format := "A4";
                          p_landscape := false; p_timeout := timeout |} in
        await (pdf options) (fun t => pdf_reply w t options)) ;;
     if wants_compression pdfOptions then
       compressedPdfBuffer <-
         compressPdfBuffer w pdfBuffer (o_dpi (options_of pdfOptions))
                           (o_quality (options_of pdfOptions)) ;;
       await close (fun t => page_reply w t close) ;;;
       ret compressedPdfBuffer
     else
       await close (fun t => page_reply w t close) ;;;
       ret pdfBuffer)
    (fun ex =>
       await close (fun t => page_reply w t close) ;;;
       throw ex).

(** ** src/server.js

    A handler computes the response it sends; [Hang] stands for a request
    that is never answered.  [trackTrace] and the console output are left
    out. *)

Inductive payload : Type :=
| text (s : string)
| bytes (b : buffer).

(** What [res.status(..).set(..).send(..)] sends. *)
Record http_response : Type :=
  { h_status : Z; h_contentType : option string; h_body : payload }.

Definition send_text (status : Z) (s : string) : http_response :=
  {| h_status := status; h_contentType := None; h_body := text s |}.

Definition send_pdf (b : buffer) : http_response :=
  {| h_status := 200; h_contentType := Some "application/pdf";
     h_body := bytes b |}.

(** The fields [POST /generateReport] destructures from [req.body]; a field
    the body lacks is [undefined]. *)
Record report_body : Type :=
  { b_url : value;
    b_intercept : ref (list rule);
    b_cookies : ref (list cookie);
    b_waitForSelector : value;
    b_compression : value;
    b_dpi : value;
    b_quality : value;
    b_timeout : value }.

(** The body [{}]. *)
Definition empty_body : report_body :=
  {| b_url := Undefined; b_intercept := r_undefined; b_cookies := r_undefined;
     b_waitForSelector := Undefined; b_compression := Undefined;
     b_dpi := Undefined; b_quality := Undefined; b_timeout := Undefined |}.

Definition dquote : string := String "034"%char EmptyString.

Definition missing_url_message : string :=
  ("Missing " ++ dquote ++ "url" ++ dquote ++ " in request body")%string.

(** [app.get('/generateReport/:url', ...)]. *)
Definition get_generateReport (w : world) (url : string) (requestId : string)
    : M http_response :=
  try_catch
    (stream <- generatePdf w (Str url) requestId Undefined r_undefined
                           r_undefined Undefined r_undefined ;;
     ret (send_pdf stream))
    (fun err => ret (send_text 500 "Failed to generate PDF")).

(** [app.post('/generateReport', ...)]. *)
Definition post_generateReport (w : world) (body : report_body)
    (requestId : string) : M http_response :=
  let url := b_url body in
  let pdfOptions := {| o_compression := b_compression body;
                       o_dpi := b_dpi body; o_quality := b_quality body |} in
  if negb (ToBoolean url) then ret (send_text 400 missing_url_message)
  else
    try_catch
      (stream <- generatePdf w url requestId (b_timeout body)
                             (b_intercept body) (b_cookies body)
                             (b_waitForSelector body) (r_some pdfOptions) ;;
       ret (send_pdf stream))
      (fun err => ret (send_text 500 "Failed to generate PDF")).

(** [app.post('/compressPdf/:dpi', ...)], from the moment the piped request
    has finished: [chunks] is what the Writable collected. *)
Definition post_compressPdf (w : world) (dpi_param : string)
    (chunks : list buffer) (requestId : string) : M http_response :=
  let pdfBuffer := Buffer_concat chunks in
  let dpi := parseInt dpi_param 10 in
  if Nat.eqb (List.length pdfBuffer) 0
  then ret (send_text 400 "No file uploaded or file is empty.")
  else
    try_catch
      (compressedPdfBuffer <-
         compressPdfBuffer w pdfBuffer (Number dpi) Undefined ;;
       ret (send_pdf compressedPdfBuffer))
      (fun err => ret (send_text 500 "Error compressing PDF")).

(** ** Vocabulary of the statements *)

Definition n10 : number := Number_of_Z 10.
Definition n600 : number := Number_of_Z 600.
Definition n1 : number := Number_of_Z 1.
Definition n100 : number := Number_of_Z 100.
Definition n95 : number := Number_of_Z 95.
Definition n150 : number := Number_of_Z 150.

Definition logged (c : call) (s : status) : entry := {| what := c; how := s |}.

(** The three calls that start the child process and feed it. *)
Definition spawn_entries (dpi jpegQuality : number) (pdfBuffer : buffer) : trace :=
  [ logged (spawn "gs" (gs_args dpi jpegQuality)) returned;
    logged (stdin_write pdfBuffer) returned;
    logged stdin_end returned ].

(** Output and diagnostics, as opposed to the events that end a run. *)
Definition is_data (ev : gs_event) : bool :=
  match ev with
  | stdout_data _ | stderr_data _ => true
  | error_event _ | close_event _ | stdin_error _ => false
  end.


(** The chunks written to standard output, in order of arrival. *)
Definition stdout_chunks (events : list gs_event) : list buffer :=
  flat_map (fun ev => match ev with stdout_data c => [c] | _ => [] end) events.


Definition is_close (e : entry) : bool :=
  match what e with close => true | _ => false end.

Definition is_goto (e : entry) : bool :=
  match what e with goto _ _ => true | _ => false end.

Definition is_spawn (e : entry) : bool :=
  match what e with spawn _ _ => true | _ => false end.

(** How many times [page.close()] was called. *)
Definition closes (t : trace) : nat := List.length (filter is_close t).

(** A world in which the page never fails and the child process emits the
    given events. *)
Definition pdf_signature : buffer := [Byte.x25; Byte.x50; Byte.x44; Byte.x46].

Definition calm (events : list gs_event) : world :=
  {| child_events := fun _ => events;
     page_reply := fun _ _ => Ret tt;
     pdf_reply := fun _ _ => Ret pdf_signature |}.

(** The page rendered a PDF: [page.pdf] was called and returned. *)
Definition is_rendered (e : entry) : bool :=
  match what e, how e with
  | pdf _, returned => true
  | _, _ => false
  end.

(** The selector wait completed. *)
Definition is_wait_done (e : entry) : bool :=
  match what e, how e with
  | waitForSelector _, returned => true
  | _, _ => false
  end.

(** The options [generatePdf] navigates with. *)
Definition navigation_options (timeout : value) : goto_options :=
  {| g_timeout := default (Number (Number_of_Z 70000)) timeout;
     g_waitUntil := ["networkidle0"; "domcontentloaded"] |}.

Definition printing_options (timeout : value) : print_options :=
  {| p_printBackground := true; p_format := "A4"; p_landscape := false;
     p_timeout := default (Number (Number_of_Z 70000)) timeout |}.

(** The response the listener gives for a rule. *)
Definition mock_of (m : rule) : mock_response :=
  {| m_status := 200;
     m_contentType := "application/json; charset=utf-8";
     m_body := JSON_stringify (apiBody m) |}.

(** A decimal digit. *)
Definition is_digit (c : ascii) : bool := (48 <=? code c) && (code c <=? 57).

(** The specification's wording of the URL rule, for comparison with
    [normalize_url]: a scheme prefix is a scheme in the sense of RFC 3986
    (a letter, then letters, digits, plus, minus or dot) followed by a colon
    and two slashes; a URL that has one is navigated to as it is, any other
    is prefixed with the plain scheme. *)
Definition is_alpha (c : ascii) : bool :=
  ((65 <=? code c) && (code c <=? 90)) || ((97 <=? code c) && (code c <=? 122)).

Fixpoint spec_scheme_rest (l : list ascii) : bool :=
  match l with
  | c :: r =>
      if code c =? 58 then
        match r with
        | "/"%char :: "/"%char :: _ => true
        | _ => false
        end
      else if is_alpha c || is_digit c || (code c =? 43) || (code c =? 45)
              || (code c =? 46)
      then spec_scheme_rest r
      else false
  | [] => false
  end.

Definition spec_has_scheme_prefix (url : string) : bool :=
  match list_ascii_of_string url with
  | c :: r => is_alpha c && spec_scheme_rest r
  | [] => false
  end.

Definition spec_navigated_url (url : string) : string :=
  if spec_has_scheme_prefix url then url else ("http://" ++ url)%string.

(** Sample inputs. *)
Definition sample_rules : list rule :=
  [ {| apiUrl := "/api/x";
       apiBody := j_object [("a", j_number (Number_of_Z 1))] |};
    {| apiUrl := "/api";
       apiBody := j_null |} ].

Definition sample_events : list gs_event :=
  [ stdout_data [Byte.x25; Byte.x50];
    stderr_data "warning";
    stdout_data [Byte.x44; Byte.x46];
    close_event (Some 0) ].

(** A world in which [page.close()] rejects. *)
Definition close_rejects : world :=
  {| child_events := fun _ => [];
     page_reply := fun _ c =>
       match c with close => Throw (Error "Protocol error") | _ => Ret tt end;
     pdf_reply := fun _ _ => Ret pdf_signature |}.

Definition is_interception (e : entry) : bool :=
  match what e with setRequestInterception _ => true | _ => false end.

(** The entries before the first one that satisfies [p], and the entries
    from that one on. *)
Fixpoint before (p : entry -> bool) (l : trace) : trace :=
  match l with
  | e :: r => if p e then [] else e :: before p r
  | [] => []
  end.

Fixpoint from (p : entry -> bool) (l : trace) : trace :=
  match l with
  | e :: r => if p e then l else from p r
  | [] => []
  end.

(** A string without any decimal digit. *)
Definition no_digit (l : list ascii) : bool :=
  forallb (fun c => negb (is_digit c)) l.

(** More vocabulary on traces. *)
Definition is_newPage (e : entry) : bool :=
  match what e with newPage => true | _ => false end.

Definition is_setCookie (e : entry) : bool :=
  match what e with setCookie _ => true | _ => false end.

Definition is_pdf (e : entry) : bool :=
  match what e with pdf _ => true | _ => false end.

Definition is_wait (e : entry) : bool :=
  match what e with waitForSelector _ => true | _ => false end.

(** How many entries of a trace satisfy [p]. *)
Definition calls (p : entry -> bool) (t : trace) : nat := List.length (filter p t).

(** A finite Number other than zero. *)
Definition is_finite_nonzero (x : number) : bool :=
  match x with S754_finite _ _ _ => true | _ => false end.

(** The integers [0 .. n - 1]. *)
Definition Z_below (n : Z) : list Z := map Z.of_nat (seq 0 (Z.to_nat n)).

(** A call that returned. *)
Definition has_returned (e : entry) : bool :=
  match how e with returned => true | _ => false end.

(** A world in which the first [page.close()] rejects and any later one
    resolves; the child process emits the given events. *)
Definition close_rejects_once (events : list gs_event) : world :=
  {| child_events := fun _ => events;
     page_reply := fun t c =>
       match c with
       | close =>
           if existsb is_close t then Ret tt else Throw (Error "Protocol error")
       | _ => Ret tt
       end;
     pdf_reply := fun _ _ => Ret pdf_signature |}.

(** A child process that exits with status 1 without reading its input:
    the write to its standard input fails, then the process closes. *)
Definition broken_pipe : list gs_event :=
  [ stderr_data "Error: /undefined in obj";
    stdin_error "write EPIPE";
    close_event (Some 1) ].

(** The success path of [generatePdf] was followed up to its
    [page.close()]: the calls [body] made since [t] rendered the page and,
    when compression is wanted, the Ghostscript promise resolved. *)
Definition succeeded (w : world) (pdfOptions : ref pdf_options)
    (t body : trace) : bool :=
  existsb is_rendered body &&
  (negb (wants_compression pdfOptions) ||
   match gs_promise (child_events w (t ++ body)) with
   | Ret _ => true
   | _ => false
   end).

(** The calls of a plain rendering of [url], in order, up to the close. *)
Definition plain_calls (url : string) : list call :=
  [ newPage;
    waitForSelector (Str "body");
    goto (normalize_url url)
         {| g_timeout := Number (Number_of_Z 70000);
            g_waitUntil := ["networkidle0"; "domcontentloaded"] |};
    pdf {| p_printBackground := true; p_format := "A4"; p_landscape := false;
           p_timeout := Number (Number_of_Z 70000) |} ].

(** The decimal digits [parseInt(s, 10)] reads: those that follow the
    leading white space and an optional sign. *)
Definition leading_digits (s : string) : list Z :=
  fst (take_digits 10 (snd (strip_sign (trim_start (list_ascii_of_string s))))).

(** The specification's wording of a numeric path segment, for comparison
    with [parseInt]: a non-empty sequence of decimal digits. *)
Definition spec_numeric_segment (s : string) : bool :=
  match list_ascii_of_string s with
  | [] => false
  | l => forallb is_digit l
  end.

(** ** src/telemetry.js *)

(** [s.slice(start, end)]: negative positions count from the end. *)
Definition slice (s : string) (start end_ : Z) : string :=
  let len := Z.of_nat (String.length s) in
  let from := if start <? 0 then Z.max (len + start) 0 else Z.min start len in
  let to := if end_ <? 0 then Z.max (len + end_) 0 else Z.min end_ len in
  substring (Z.to_nat from) (Z.to_nat (Z.max (to - from) 0)) s.

(** [generateRequestId()], given what the two sources of the id return:
    [new Date().getMilliseconds()] and [Math.random().toString(36)]. *)
Definition generateRequestId (milliseconds : Z) (random36 : string) : string :=
  (Z_toString milliseconds ++ "-" ++ slice random36 2 9)%string.

(** * Properties *)

(** ** Numbers and strings *)

Lemma SFltb_SFleb (a b : number) : SFltb a b = true -> SFleb a b = true.
Proof.
  unfold SFltb, SFleb. destruct (SFcompare a b) as [[]|]; congruence.
Qed.

Lemma min_from_600 (x : number) :
  min_from pInfinity [n600; x] =
  if isNaN x then NaN else if SFltb x n600 then x else n600.
Proof. destruct x as [[]|[]| |]; reflexivity. Qed.

Lemma max_from_10 (x : number) :
  max_from nInfinity [n10; x] =
  if isNaN x then NaN else if SFltb n10 x then x else n10.
Proof. destruct x as [[]|[]| |]; reflexivity. Qed.

Lemma min_from_100 (x : number) :
  min_from pInfinity [n100; x] =
  if isNaN x then NaN else if SFltb x n100 then x else n100.
Proof. destruct x as [[]|[]| |]; reflexivity. Qed.

Lemma max_from_1 (x : number) :
  max_from nInfinity [n1; x] =
  if isNaN x then NaN else if SFltb n1 x then x else n1.
Proof. destruct x as [[]|[]| |]; reflexivity. Qed.

(** The clamp written in the source, on a Number. *)
Lemma clamp_cases (lo hi x : number) :
  isNaN x = false -> SFltb lo hi = true -> isNaN lo = false -> isNaN hi = false ->
  let m := if SFltb x hi then x else hi in
  let r := if isNaN m then NaN else if SFltb lo m then m else lo in
  SFleb lo lo = true -> SFleb hi hi = true ->
  between lo hi r = true.
Proof.
  intros Hx Hlh Hlo Hhi m r Hll Hhh. unfold r, m, between.
  destruct (SFltb x hi) eqn:E1.
  - rewrite Hx. destruct (SFltb lo x) eqn:E2.
    + now rewrite (SFltb_SFleb _ _ E1), (SFltb_SFleb _ _ E2).
    + now rewrite Hll, (SFltb_SFleb _ _ Hlh).
  - rewrite Hhi, Hlh. now rewrite Hhh, (SFltb_SFleb _ _ Hlh).
Qed.

(** Every resolution whose numeric value is not NaN is clamped into
    [10, 600]. *)
Lemma used_dpi_in_range (dpi : value) :
  isNaN (ToNumber (default (Number n150) dpi)) = false ->
  between n10 n600 (used_dpi dpi) = true.
Proof.
  intros H. unfold used_dpi, Math_max, Math_min.
  cbn [map ToNumber]. fold n10 n600 n150.
  rewrite min_from_600, max_from_10, H.
  now apply clamp_cases.
Qed.

(** Every quality whose numeric value is not NaN is clamped into [1, 100]. *)
Lemma used_jpegQuality_in_range (q : value) :
  isNaN (ToNumber (default (Number n95) q)) = false ->
  between n1 n100 (used_jpegQuality q) = true.
Proof.
  intros H. unfold used_jpegQuality, Math_max, Math_min.
  cbn [map ToNumber]. fold n1 n100 n95.
  rewrite min_from_100, max_from_1, H.
  now apply clamp_cases.
Qed.

(** NaN goes through both clamps. *)
Lemma used_dpi_NaN (dpi : value) :
  isNaN (ToNumber (default (Number n150) dpi)) = true -> used_dpi dpi = NaN.
Proof.
  intros H. unfold used_dpi, Math_max, Math_min.
  cbn [map ToNumber]. fold n10 n600 n150.
  rewrite min_from_600, H. reflexivity.
Qed.

Lemma used_jpegQuality_default : used_jpegQuality Undefined = n95.
Proof. reflexivity. Qed.

Lemma substring_infix (a b c : string) :
  substring (String.length a) (String.length b) (a ++ b ++ c)%string = b.
Proof.
  induction a as [|x a IH]; simpl.
  - revert c. induction b as [|y b IHb]; intros c; simpl.
    + now destruct c.
    + now rewrite IHb.
  - exact IH.
Qed.

(** A string includes each of its infixes. *)
Lemma includes_infix (a b c : string) : includes (a ++ b ++ c)%string b = true.
Proof.
  unfold includes, indexOf.
  destruct (String.index 0 b (a ++ b ++ c)) as [i|] eqn:E.
  - apply negb_true_iff, Z.eqb_neq. lia.
  - exfalso. destruct b as [|y b].
    + destruct (a ++ "" ++ c)%string; simpl in E; discriminate.
    + refine (index_correct3 0 (String.length a) _ _ E _ _ (substring_infix a _ c)).
      * discriminate.
      * apply Nat.le_0_l.
Qed.

(** ** The compression adapter *)

(** [compressPdfBuffer] makes its three calls and then settles as the
    promise does. *)
Lemma compressPdfBuffer_eq (w : world) (pdfBuffer : buffer) (dpi q : value) (t : trace) :
  let t' := t ++ spawn_entries (used_dpi dpi) (used_jpegQuality q) pdfBuffer in
  compressPdfBuffer w pdfBuffer dpi q t = (gs_promise (child_events w t'), t').
Proof.
  unfold compressPdfBuffer, try_catch, bind, perform, await, throw, spawn_entries, logged.
  cbn [status_of]. rewrite <- !app_assoc. cbn [app].
  destruct (gs_promise _); reflexivity.
Qed.

(** Once the promise is settled, no later event changes its outcome. *)
Lemma settled_for_good (events : list gs_event) (st : gs_state) (o : outcome buffer) :
  settled st = Some o -> settled (fold_left handle events st) = Some o.
Proof.
  revert st. induction events as [|ev events IH]; intros st H; [exact H|].
  cbn [fold_left]. apply IH.
  destruct ev as [c|e|m|[[| |]|]|m]; cbn [handle settled]; try exact H;
    unfold settle; rewrite H; exact H.
Qed.

(** Output and diagnostics leave the promise pending and accumulate the
    standard-output chunks in order. *)
Lemma handle_data (io : list gs_event) (st : gs_state) :
  forallb is_data io = true ->
  fold_left handle io st =
  {| outputChunks := outputChunks st ++ stdout_chunks io; settled := settled st |}.
Proof.
  revert st. induction io as [|ev io IH]; intros st H.
  - cbn. rewrite app_nil_r. now destruct st.
  - cbn [forallb] in H. apply andb_true_iff in H as [Hev Hio].
    cbn [fold_left]. rewrite (IH _ Hio).
    destruct ev; try discriminate; cbn [handle outputChunks settled stdout_chunks flat_map].
    + now rewrite <- app_assoc.
    + reflexivity.
Qed.

Lemma gs_promise_first (io rest : list gs_event) (ev : gs_event) :
  forallb is_data io = true -> is_data ev = false ->
  gs_promise (io ++ ev :: rest) =
  match ev with
  | close_event (Some 0) => Ret (Buffer_concat (stdout_chunks io))
  | close_event exitCode => Throw (Error (exit_message exitCode))
  | error_event message => Throw (Error (spawn_message message))
  | _ => Hang
  end.
Proof.
  intros Hio Hev. unfold gs_promise.
  rewrite fold_left_app, (handle_data _ _ Hio). cbn [fold_left outputChunks settled app].
  destruct ev as [c|e|m|[[| |]|]|m]; try discriminate;
    cbn [handle]; unfold settle; cbn [settled outputChunks];
    erewrite settled_for_good by reflexivity; reflexivity.
Qed.

(** A child process that never emits 'close' nor 'error' leaves the
    promise pending. *)
Lemma gs_promise_pending (io : list gs_event) :
  forallb is_data io = true -> gs_promise io = Hang.
Proof.
  intros H. unfold gs_promise. now rewrite (handle_data _ _ H).
Qed.



(** C1, at the input the code mishandles.  A resolution (or a quality) that
    is NaN is not clamped: both [Math.min] and [Math.max] return NaN, which
    lies outside [10, 600] and outside [1, 100], and the Ghostscript
    arguments are built with it. *)
Theorem compressPdfBuffer_NaN_not_clamped :
  forall (w : world) (pdfBuffer : buffer) (t : trace),
    used_dpi (Number NaN) = NaN /\
    used_jpegQuality (Number NaN) = NaN /\
    between n10 n600 (used_dpi (Number NaN)) = false /\
    between n1 n100 (used_jpegQuality (Number NaN)) = false /\
    snd (compressPdfBuffer w pdfBuffer (Number NaN) (Number NaN) t) =
      t ++ [ logged (spawn "gs" (gs_args NaN NaN)) returned;
             logged (stdin_write pdfBuffer) returned;
             logged stdin_end returned ].
Proof.
  intros w pdfBuffer t. repeat split; try reflexivity.
  rewrite compressPdfBuffer_eq. reflexivity.
Qed.

(** C2, at the input the code mishandles.  When the standard input of the
    child process raises an 'error' event before the process closes, as it
    does when the child exits without reading what is written to it, the
    promise is left pending for good: the call neither resolves nor
    rejects, whatever exit code the 'close' event carries afterwards. *)
Theorem compressPdfBuffer_dies_on_stdin_error :
  forall (w : world) (pdfBuffer : buffer) (dpi q : value) (t : trace)
         (io rest : list gs_event) (message : string),
    child_events w (t ++ spawn_entries (used_dpi dpi) (used_jpegQuality q) pdfBuffer)
      = io ++ stdin_error message :: rest ->
    forallb is_data io = true ->
    fst (compressPdfBuffer w pdfBuffer dpi q t) = Hang /\
    (forall exitCode,
       In (close_event exitCode) rest ->
       fst (compressPdfBuffer w pdfBuffer dpi q t)
         <> Throw (Error (exit_message exitCode))).
Proof.
  intros w pdfBuffer dpi q t io rest message Hev Hio.
  assert (H : fst (compressPdfBuffer w pdfBuffer dpi q t) = Hang).
  { rewrite compressPdfBuffer_eq. cbn [fst]. rewrite Hev.
    now rewrite (gs_promise_first io rest (stdin_error message) Hio eq_refl). }
  split; [exact H|]. intros exitCode _. rewrite H. discriminate.
Qed.

Lemma compressPdfBuffer_dies_on_stdin_error_witness :
  fst (compressPdfBuffer (calm broken_pipe) pdf_signature Undefined Undefined []) = Hang /\
  (forall exitCode,
     In (close_event exitCode) [close_event (Some 1)] ->
     fst (compressPdfBuffer (calm broken_pipe) pdf_signature Undefined Undefined [])
       <> Throw (Error (exit_message exitCode))).
Proof.
  apply (compressPdfBuffer_dies_on_stdin_error (calm broken_pipe) pdf_signature
           Undefined Undefined [] [stderr_data "Error: /undefined in obj"]
           [close_event (Some 1)] "write EPIPE").
  - reflexivity.
  - reflexivity.
Defined.



(** A spawn failure, as Node reports it: 'error', then 'close' with the
    negative error number. *)
Example compressPdfBuffer_spawn_failure :
  fst (compressPdfBuffer
         (calm [error_event "spawn gs ENOENT"; close_event (Some (-2))])
         pdf_signature Undefined Undefined [])
  = Throw (Error "Failed to execute Ghostscript: spawn gs ENOENT").
Proof. reflexivity. Qed.

(** Ghostscript exits with status 1; a process killed by a signal closes
    with a null exit code. *)
Example compressPdfBuffer_exit_codes :
  fst (compressPdfBuffer
         (calm [stderr_data "Error: /undefined in obj"; close_event (Some 1)])
         pdf_signature Undefined Undefined [])
  = Throw (Error "Ghostscript process exited with code 1. Check the input PDF or Ghostscript configuration.") /\
  fst (compressPdfBuffer (calm [close_event None]) pdf_signature Undefined Undefined [])
  = Throw (Error "Ghostscript process exited with code null. Check the input PDF or Ghostscript configuration.").
Proof. split; reflexivity. Qed.

(** ** Stepping through a computation *)

Lemma bind_await {A B} (c : call) (r : trace -> outcome A) (k : A -> M B) (t : trace) :
  bind (await c r) k t =
  match r t with
  | Ret a => k a (t ++ [logged c returned])
  | Throw e => (Throw e, t ++ [logged c threw])
  | Hang => (Hang, t ++ [logged c pending])
  end.
Proof. unfold bind, await. destruct (r t); reflexivity. Qed.

Lemma bind_perform {B} (c : call) (k : unit -> M B) (t : trace) :
  bind (perform c) k t = k tt (t ++ [logged c returned]).
Proof. reflexivity. Qed.

Lemma bind_ret {A B} (a : A) (k : A -> M B) (t : trace) : bind (ret a) k t = k a t.
Proof. reflexivity. Qed.

Lemma try_bind_await {A B} (c : call) (r : trace -> outcome A) (k : A -> M B)
    (h : error -> M B) (t : trace) :
  try_catch (bind (await c r) k) h t =
  match r t with
  | Ret a => try_catch (k a) h (t ++ [logged c returned])
  | Throw e => h e (t ++ [logged c threw])
  | Hang => (Hang, t ++ [logged c pending])
  end.
Proof. unfold try_catch, bind, await. destruct (r t); reflexivity. Qed.

Lemma try_bind_perform {B} (c : call) (k : unit -> M B) (h : error -> M B) (t : trace) :
  try_catch (bind (perform c) k) h t = try_catch (k tt) h (t ++ [logged c returned]).
Proof. reflexivity. Qed.

Lemma try_bind_ret {A B} (a : A) (k : A -> M B) (h : error -> M B) (t : trace) :
  try_catch (bind (ret a) k) h t = try_catch (k a) h t.
Proof. reflexivity. Qed.

Lemma try_bind_throw {A B} (e : error) (k : A -> M B) (h : error -> M B) (t : trace) :
  try_catch (bind (throw e) k) h t = h e t.
Proof. reflexivity. Qed.

Lemma try_bind_assoc {A B C} (m : M A) (f : A -> M B) (g : B -> M C)
    (h : error -> M C) (t : trace) :
  try_catch (bind (bind m f) g) h t = try_catch (bind m (fun a => bind (f a) g)) h t.
Proof. unfold try_catch, bind. destruct (m t) as [[a|e|] t1]; reflexivity. Qed.

Lemma try_bind_compress {B} (w : world) (b : buffer) (dpi q : value)
    (k : buffer -> M B) (h : error -> M B) (t : trace) :
  try_catch (bind (compressPdfBuffer w b dpi q) k) h t =
  let t' := t ++ spawn_entries (used_dpi dpi) (used_jpegQuality q) b in
  match gs_promise (child_events w t') with
  | Ret a => try_catch (k a) h t'
  | Throw e => h e t'
  | Hang => (Hang, t')
  end.
Proof.
  unfold try_catch at 1. unfold bind at 1. rewrite compressPdfBuffer_eq. cbv zeta.
  destruct (gs_promise _); reflexivity.
Qed.

Lemma try_ret {A} (a : A) (h : error -> M A) (t : trace) :
  try_catch (ret a) h t = (Ret a, t).
Proof. reflexivity. Qed.

(** Case analysis on the next reply of the world, or on the parameter the
    next statement tests. *)
Ltac reply :=
  match goal with
  | H : forall t, page_reply ?w t ?c = _
    |- context [match page_reply ?w ?t1 ?c with _ => _ end] => rewrite (H t1)
  | H : page_reply ?w ?t ?c = _
    |- context [match page_reply ?w ?t ?c with _ => _ end] => rewrite H
  | |- context [match page_reply ?w ?t ?c with _ => _ end] =>
      destruct (page_reply w t c) as [[]| |] eqn:?
  | |- context [match pdf_reply ?w ?t ?o with _ => _ end] =>
      destruct (pdf_reply w t o) eqn:?
  | |- context [match gs_promise ?e with _ => _ end] =>
      destruct (gs_promise e) eqn:?
  | |- context [try_catch (bind (match ?c with r_some _ => _ | _ => _ end) _) _ _] =>
      tryif is_var c then destruct c as [| |?cs] else cbv iota
  | |- context [try_catch (bind (if ?b then _ else _) _) _ _] =>
      destruct b eqn:?
  | |- context [try_catch (if ?b then _ else _) _ _] =>
      destruct b eqn:?
  | |- context [try_catch (bind (normalized ?u) _) _ _] =>
      tryif is_var u then destruct u as [| |?b|?x|?s] else idtac;
      cbn [normalized]
  end.

Ltac step :=
  first [ rewrite try_bind_perform | rewrite bind_perform
        | rewrite try_bind_await | rewrite bind_await
        | rewrite try_bind_compress
        | rewrite try_bind_ret | rewrite try_bind_throw
        | rewrite try_bind_assoc | rewrite try_ret | rewrite bind_ret ];
  cbv beta zeta.

Ltac run := cbv beta zeta; repeat first [ reply | step ]; cbv beta delta [throw ret].

Ltac flatten := rewrite <- ?app_assoc; cbn [app spawn_entries].

(** Every path of a call of [generatePdf], one goal each: the call is
    replaced by its outcome and its trace. *)
Ltac paths :=
  match goal with
  | |- context [generatePdf ?w ?u ?i ?to ?rq ?ck ?sel ?po ?t] =>
      let E := fresh "E" in
      destruct (generatePdf w u i to rq ck sel po t) as [?o ?tr] eqn:E;
      revert E; unfold generatePdf; run; flatten;
      intros E; injection E as <- <-; cbn [fst snd]
  end.

Ltac extension :=
  match goal with
  | |- exists ext, ?t ++ ?l = _ /\ _ => exists l; split; [reflexivity|]
  | |- exists ext, ?t = _ /\ _ => exists []; split; [now rewrite app_nil_r|]
  end.

(** The same on the hypotheses. *)
Ltac flatten_all :=
  repeat match goal with
         | H : context [(_ ++ _) ++ _] |- _ => rewrite <- app_assoc in H; cbn [app] in H
         end.

(** ** The render adapter *)

(** C3, with the path the code mishandles.  A call of [generatePdf] that
    acquires a page and comes back has called [page.close()] as its last
    call, and exactly once, on every failure path, whether that close
    resolves or rejects, and on a success path whose close resolves.  When
    the close of a success path rejects, the rejection is caught by the
    catch block of the same function, which calls [page.close()] a second
    time: two calls. *)
Theorem generatePdf_closes_page_once_unless_close_rejects :
  forall (w : world) (url : value) (requestId : string) (timeout : value)
         (requests : ref (list rule)) (cookies : ref (list cookie))
         (selector : value) (pdfOptions : ref pdf_options) (t : trace),
    page_reply w t newPage = Ret tt ->
    fst (generatePdf w url requestId timeout requests cookies selector pdfOptions t)
      <> Hang ->
    exists body,
      closes body = 0%nat /\
      ((exists st,
          snd (generatePdf w url requestId timeout requests cookies selector
                 pdfOptions t) = t ++ body ++ [logged close st] /\
          (st = threw -> succeeded w pdfOptions t body = false)) \/
       (exists st,
          snd (generatePdf w url requestId timeout requests cookies selector
                 pdfOptions t) = t ++ body ++ [logged close threw; logged close st] /\
          succeeded w pdfOptions t body = true)).
Proof.
  intros w url rid timeout requests cookies selector pdfOptions t Hnew.
  paths; try congruence; intros _.
  all: match goal with
       | |- exists body, _ /\ ((exists st, ?t ++ ?l = _ /\ _) \/ _) =>
           let r := eval cbv [rev app] in (rev l) in
           lazymatch r with
           | logged close ?st :: logged close threw :: _ =>
               exists (removelast (removelast l)); split; [reflexivity|];
               right; exists st; split; [reflexivity|]
           | logged close ?st :: _ =>
               exists (removelast l); split; [reflexivity|];
               left; exists st; split; [reflexivity|]
           end
       end.
  all: try (intros Hst; discriminate Hst).
  all: try intros _.
  all: unfold succeeded; cbn [removelast];
       try match goal with
           | H : wants_compression ?o = _ |- context [wants_compression ?o] => rewrite H
           end;
       try match goal with
           | H : gs_promise _ = ?r |- context [gs_promise ?x] =>
               replace (gs_promise x) with r
                 by (symmetry; revert H; flatten; intros H; exact H)
           end;
       reflexivity.
Qed.

Lemma generatePdf_closes_page_once_unless_close_rejects_witness :
  exists body,
    closes body = 0%nat /\
    ((exists st,
        snd (generatePdf (close_rejects_once []) (Str "example.com") "1-abc" Undefined
               r_undefined r_undefined Undefined r_undefined [])
          = [] ++ body ++ [logged close st] /\
        (st = threw -> succeeded (close_rejects_once []) r_undefined [] body = false)) \/
     (exists st,
        snd (generatePdf (close_rejects_once []) (Str "example.com") "1-abc" Undefined
               r_undefined r_undefined Undefined r_undefined [])
          = [] ++ body ++ [logged close threw; logged close st] /\
        succeeded (close_rejects_once []) r_undefined [] body = true)).
Proof.
  apply generatePdf_closes_page_once_unless_close_rejects.
  - reflexivity.
  - vm_compute. discriminate.
Defined.

(** The first [page.close()] rejects after a rendering, with and without
    compression: two calls.  A failure before, here of [url.indexOf], is
    followed by one call even when that call rejects. *)
Example generatePdf_close_rejects_once_trace :
  generatePdf (close_rejects_once []) (Str "example.com") "1-abc" Undefined
    r_undefined r_undefined Undefined r_undefined []
  = (Throw (Error "Protocol error"),
     [ logged newPage returned;
       logged (waitForSelector (Str "body")) returned;
       logged (goto "http://example.com" (navigation_options Undefined)) returned;
       logged (pdf (printing_options Undefined)) returned;
       logged close threw;
       logged close returned ]) /\
  closes (snd (generatePdf (close_rejects_once sample_events) (Str "example.com")
                 "1-abc" Undefined r_undefined r_undefined Undefined
                 (r_some {| o_compression := Bool true; o_dpi := Undefined;
                            o_quality := Undefined |}) [])) = 2%nat /\
  closes (snd (generatePdf close_rejects (Number (Number_of_Z 5)) "1-abc" Undefined
                 r_undefined r_undefined Undefined r_undefined [])) = 1%nat.
Proof. repeat split; reflexivity. Qed.

(** When [page.close()] rejects on the success path, the catch block calls
    it a second time. *)
Example generatePdf_close_rejects_twice :
  closes (snd (generatePdf close_rejects (Str "example.com") "1-abc" Undefined
                 r_undefined r_undefined Undefined r_undefined [])) = 2%nat.
Proof. reflexivity. Qed.

(** A call comes back as soon as no awaited operation stays pending. *)
Lemma generatePdf_comes_back
    (w : world) (url : value) (requestId : string) (timeout : value)
    (requests : ref (list rule)) (cookies : ref (list cookie))
    (selector : value) (pdfOptions : ref pdf_options) (t : trace) :
  (forall t' c, page_reply w t' c <> Hang) ->
  (forall t' o, pdf_reply w t' o <> Hang) ->
  (forall t', gs_promise (child_events w t') <> Hang) ->
  fst (generatePdf w url requestId timeout requests cookies selector pdfOptions t)
    <> Hang.
Proof.
  intros Hpage Hpdf Hgs.
  paths; try discriminate.
  all: match goal with
       | H : page_reply _ _ _ = Hang |- _ => now apply Hpage in H
       | H : pdf_reply _ _ _ = Hang |- _ => now apply Hpdf in H
       | H : gs_promise _ = Hang |- _ => now apply Hgs in H
       end.
Qed.

(** C6.  The step order of one [generatePdf].  The calls either contain
    no navigation, and then the selector wait did not complete, or they
    consist of set-up calls, the selector wait, which returned, immediately
    followed by the only [page.goto], on the normalized URL, with the
    timeout and with both wait conditions; nothing navigates before the
    wait.  The steps are reached: with a string for [url], once every call
    before it has returned the selector wait is called; once the wait has
    completed the navigation is called; and [page.pdf] is called only after
    the wait and the navigation have both returned. *)
Theorem generatePdf_waits_then_navigates :
  forall (w : world) (url : value) (requestId : string) (timeout : value)
         (requests : ref (list rule)) (cookies : ref (list cookie))
         (selector : value) (pdfOptions : ref pdf_options) (t : trace),
  exists ext,
    snd (generatePdf w url requestId timeout requests cookies selector pdfOptions t)
      = t ++ ext /\
    ((existsb is_goto ext = false /\ existsb is_wait_done ext = false) \/
     (exists s setup st rest,
        url = Str s /\
        ext = setup
              ++ [ logged (waitForSelector (default (Str "body") selector)) returned;
                   logged (goto (normalize_url s)
                             {| g_timeout := default (Number (Number_of_Z 70000)) timeout;
                                g_waitUntil := ["networkidle0"; "domcontentloaded"] |})
                          st ]
              ++ rest /\
        existsb is_goto setup = false /\
        existsb is_wait_done setup = false /\
        existsb is_goto rest = false)) /\
    (forall s, url = Str s ->
       forallb has_returned (before is_wait ext) = true ->
       exists st,
         In (logged (waitForSelector (default (Str "body") selector)) st) ext) /\
    (existsb is_wait_done ext = true -> existsb is_goto ext = true) /\
    (existsb is_pdf ext = true ->
     exists s setup rest,
       url = Str s /\
       ext = setup
             ++ [ logged (waitForSelector (default (Str "body") selector)) returned;
                  logged (goto (normalize_url s)
                            {| g_timeout := default (Number (Number_of_Z 70000)) timeout;
                               g_waitUntil := ["networkidle0"; "domcontentloaded"] |})
                         returned ]
             ++ rest /\
       existsb is_pdf setup = false).
Proof.
  intros w url rid timeout requests cookies selector pdfOptions t.
  paths; extension.
  all: split;
    [ first
        [ left; split; reflexivity
        | right;
          match goal with
          | |- exists s setup st rest, Str ?u = _ /\ ?l = _ /\ _ =>
              exists u, (removelast (before is_goto l));
              match eval cbv [hd_error from is_goto what logged] in (hd_error (from is_goto l)) with
              | Some {| what := _; how := ?st |} =>
                  exists st, (tl (from is_goto l))
              end;
              repeat split; reflexivity
          end ]
    | split; [|split] ].
  all: try (intros Hp; discriminate Hp).
  all: try reflexivity.
  all: try (intros s' Hs Hr; first [discriminate Hs | discriminate Hr | idtac];
            eexists; unfold logged; cbn [In];
            repeat (first [left; reflexivity | right])).
  all: try (intros _; reflexivity).
  all: intros _;
       match goal with
       | |- exists s setup rest, Str ?u = _ /\ ?l = _ /\ _ =>
           exists u, (removelast (before is_goto l)), (tl (from is_goto l));
           repeat split; reflexivity
       end.
Qed.

Lemma generatePdf_waits_then_navigates_witness :
  (exists st,
     In (logged (waitForSelector (Str "body")) st)
        (snd (generatePdf (calm []) (Str "example.com") "1-abc" Undefined
                r_undefined r_undefined Undefined r_undefined []))) /\
  existsb is_goto
    (snd (generatePdf (calm []) (Str "example.com") "1-abc" Undefined
            r_undefined r_undefined Undefined r_undefined [])) = true.
Proof.
  destruct (generatePdf_waits_then_navigates (calm []) (Str "example.com") "1-abc"
              Undefined r_undefined r_undefined Undefined r_undefined [])
    as (ext & Hext & _ & Hwait & Hgoto & _).
  change ([] ++ ext) with ext in Hext. rewrite Hext. split.
  - apply (Hwait "example.com" eq_refl). rewrite <- Hext. reflexivity.
  - apply Hgoto. rewrite <- Hext. reflexivity.
Defined.

Lemma normalize_url_prefix (s : string) :
  normalize_url s = if String.prefix "http" s then s else ("http://" ++ s)%string.
Proof.
  unfold normalize_url, indexOf. destruct s as [|c s].
  - reflexivity.
  - cbn [String.index]. destruct (String.prefix "http" (String c s)); [reflexivity|].
    destruct (String.index 0 "http" s) as [n|]; [|reflexivity].
    now rewrite Nat2Z.inj_succ, (proj2 (Z.eqb_neq _ _)) by lia.
Qed.

(** C4, as the code has it.  A URL string that does not begin with the
    four characters http is navigated to with the plain scheme in front,
    any other as it is; every navigation of the call is to that URL, and
    there is one as soon as the selector wait completes. *)
Theorem generatePdf_navigates_to_normalized_url :
  forall (w : world) (s : string) (requestId : string) (timeout : value)
         (requests : ref (list rule)) (cookies : ref (list cookie))
         (selector : value) (pdfOptions : ref pdf_options) (t : trace),
  exists ext,
    snd (generatePdf w (Str s) requestId timeout requests cookies selector pdfOptions t)
      = t ++ ext /\
    normalize_url s
      = (if String.prefix "http" s then s else ("http://" ++ s)%string) /\
    (forall url options st,
       In (logged (goto url options) st) ext -> url = normalize_url s) /\
    (existsb is_wait_done ext = true ->
     exists options st, In (logged (goto (normalize_url s) options) st) ext).
Proof.
  intros w s rid timeout requests cookies selector pdfOptions t.
  paths; extension.
  all: split; [apply normalize_url_prefix|].
  all: split;
    [ intros url options st Hin; unfold logged in Hin; cbn [In] in Hin;
      repeat (destruct Hin as [Hin|Hin]; [try discriminate Hin; now inversion Hin|]);
      contradiction
    | try (intros; discriminate) ].
  all: intros _; do 2 eexists; cbn [In]; auto 12.
Qed.

Lemma generatePdf_navigates_to_normalized_url_witness :
  exists options st,
    In (logged (goto "http://example.com" options) st)
       (snd (generatePdf (calm []) (Str "example.com") "1-abc" Undefined
               r_undefined r_undefined Undefined r_undefined [])).
Proof.
  destruct (generatePdf_navigates_to_normalized_url (calm []) "example.com" "1-abc"
              Undefined r_undefined r_undefined Undefined r_undefined [])
    as (ext & Hext & _ & _ & H).
  change ([] ++ ext) with ext in Hext. rewrite Hext.
  apply H. rewrite <- Hext. reflexivity.
Defined.

(** C4, against the specification's wording: the host name httpbin.org has
    no scheme prefix, yet it is navigated to without one. *)
Lemma generatePdf_scheme_prefix_counterexample :
  spec_has_scheme_prefix "httpbin.org" = false /\
  spec_navigated_url "httpbin.org" = "http://httpbin.org" /\
  snd (generatePdf (calm []) (Str "httpbin.org") "1-abc" Undefined r_undefined
         r_undefined Undefined r_undefined [])
  = [ logged newPage returned;
      logged (waitForSelector (Str "body")) returned;
      logged (goto "httpbin.org" (navigation_options Undefined)) returned;
      logged (pdf (printing_options Undefined)) returned;
      logged close returned ] /\
  "httpbin.org" <> spec_navigated_url "httpbin.org".
Proof. repeat split; try reflexivity. discriminate. Qed.

(** The other direction: a URL with another scheme is prefixed. *)
Example generatePdf_prefixes_other_schemes :
  spec_has_scheme_prefix "ftp://host/a.html" = true /\
  normalize_url "ftp://host/a.html" = "http://ftp://host/a.html" /\
  normalize_url "HTTP://HOST" = "http://HTTP://HOST" /\
  normalize_url "https://host" = "https://host".
Proof. repeat split; reflexivity. Qed.

Lemma wants_compression_iff (pdfOptions : ref pdf_options) :
  wants_compression pdfOptions = true <->
  exists o, pdfOptions = r_some o /\ loose_eq (o_compression o) (Bool true) = true.
Proof.
  split.
  - destruct pdfOptions as [| |o]; try discriminate. intros H. now exists o.
  - intros [o [-> H]]. exact H.
Qed.

(** C10.  Once the page has been rendered, the Ghostscript process is
    spawned exactly when [pdfOptions] is neither null nor undefined and its
    [compression] is loosely equal to [true].  With the string true for
    [compression] nothing is spawned, and a buffer the call returns is the
    one [page.pdf] returned.  A buffer is returned only after a rendering,
    and after a rendering the decision is carried out: with compression
    the child process is spawned with the clamped [dpi] and [quality], the
    rendered buffer is what is written to its standard input, and the call
    returns a buffer exactly when the compression resolves and
    [page.close()] returns, namely the buffer the compression resolved
    with; without compression [page.close()] is the next call and the call
    returns a buffer exactly when it returns, namely the rendered one.
    With a string for [url], a call whose calls all return has rendered the
    page. *)
Theorem generatePdf_compresses_iff_loosely_true :
  forall (w : world) (url : value) (requestId : string) (timeout : value)
         (requests : ref (list rule)) (cookies : ref (list cookie))
         (selector : value) (pdfOptions : ref pdf_options) (t : trace),
  exists ext,
    snd (generatePdf w url requestId timeout requests cookies selector pdfOptions t)
      = t ++ ext /\
    (existsb is_rendered ext = true ->
     (existsb is_spawn ext = true <->
      exists o, pdfOptions = r_some o /\
                loose_eq (o_compression o) (Bool true) = true)) /\
    (forall o, pdfOptions = r_some o -> o_compression o = Str "true" ->
       existsb is_spawn ext = false /\
       forall b,
         fst (generatePdf w url requestId timeout requests cookies selector
                pdfOptions t) = Ret b ->
         exists pre,
           ext = pre ++ [ logged (pdf (printing_options timeout)) returned;
                          logged close returned ] /\
           pdf_reply w (t ++ pre) (printing_options timeout) = Ret b) /\
    (forall b,
       fst (generatePdf w url requestId timeout requests cookies selector
              pdfOptions t) = Ret b ->
       existsb is_rendered ext = true) /\
    (existsb is_rendered ext = true ->
     exists pre rendered rest,
       ext = pre ++ logged (pdf (printing_options timeout)) returned :: rest /\
       pdf_reply w (t ++ pre) (printing_options timeout) = Ret rendered /\
       match pdfOptions with
       | r_some o =>
           if loose_eq (o_compression o) (Bool true)
           then
             exists tail,
               rest = spawn_entries (used_dpi (o_dpi o)) (used_jpegQuality (o_quality o))
                        rendered ++ tail /\
               match gs_promise
                       (child_events w
                          (t ++ pre
                           ++ logged (pdf (printing_options timeout)) returned
                              :: spawn_entries (used_dpi (o_dpi o))
                                   (used_jpegQuality (o_quality o)) rendered))
               with
               | Ret compressed =>
                   exists st tail',
                     tail = logged close st :: tail' /\
                     forall b,
                       fst (generatePdf w url requestId timeout requests cookies
                              selector pdfOptions t) = Ret b <->
                       st = returned /\ b = compressed
               | _ =>
                   forall b,
                     fst (generatePdf w url requestId timeout requests cookies
                            selector pdfOptions t) <> Ret b
               end
           else
             exists st tail,
               rest = logged close st :: tail /\
               forall b,
                 fst (generatePdf w url requestId timeout requests cookies
                        selector pdfOptions t) = Ret b <->
                 st = returned /\ b = rendered
       | _ =>
           exists st tail,
             rest = logged close st :: tail /\
             forall b,
               fst (generatePdf w url requestId timeout requests cookies
                      selector pdfOptions t) = Ret b <->
               st = returned /\ b = rendered
       end) /\
    (forall s, url = Str s -> forallb has_returned ext = true ->
       existsb is_rendered ext = true).
Proof.
  intros w url rid timeout requests cookies selector pdfOptions t.
  paths; extension.
  all: split;
    [ first
        [ intros H; discriminate H
        | intros _; etransitivity; [|apply wants_compression_iff];
          split; intros H;
          first [ assumption | reflexivity | congruence
                | cbv [existsb is_spawn what logged orb] in H; discriminate H ] ]
    | split;
      [ intros o -> Ho;
        first
          [ match goal with
            | H : wants_compression (r_some _) = true |- _ =>
                cbn [wants_compression] in H; rewrite Ho in H; discriminate H
            end
          | split; [reflexivity|]; intros buf Hb;
            first
              [ discriminate Hb
              | injection Hb as ->;
                match goal with
                | |- exists pre, ?l = _ /\ _ => exists (removelast (removelast l))
                end;
                split; [reflexivity|]; cbn [removelast]; flatten;
                match goal with H : pdf_reply _ _ _ = Ret _ |- _ => revert H end;
                flatten; intros H; exact H ] ]
      | split;
        [ intros buf Hb; first [discriminate Hb | reflexivity]
        | split;
          [ | intros s' Hs Hall;
              first [reflexivity | discriminate Hs | discriminate Hall] ] ] ] ].
  all: try (intros H; discriminate H).
  all: intros _.
  all: flatten_all.
  all: match goal with
       | Hp : pdf_reply _ (_ ++ ?pre) _ = Ret ?b
         |- exists pre' rendered rest, ?l = _ /\ _ =>
           exists pre, b, (tl (from is_pdf l));
           split; [reflexivity|]; split; [exact Hp|]
       end.
  all: destruct pdfOptions as [| |o]; try discriminate;
       cbn [wants_compression options_of] in *;
       try match goal with
           | H : loose_eq _ _ = _ |- _ => rewrite H
           end.
  all: try (eexists; split; [reflexivity|];
            match goal with
            | H : gs_promise _ = ?r |- context [gs_promise ?x] =>
                replace (gs_promise x) with r by (symmetry; exact H)
            end;
            cbv iota).
  all: try (intros buf; discriminate).
  all: do 2 eexists; split; [reflexivity|].
  all: intros buf; split;
       [ intros Hb; first [discriminate Hb | injection Hb as <-; split; reflexivity]
       | intros [Hst ->]; first [discriminate Hst | reflexivity] ].
Qed.

Lemma generatePdf_compresses_iff_loosely_true_witness :
  (exists ext,
     snd (generatePdf (calm sample_events) (Str "example.com") "1-abc" Undefined
            r_undefined r_undefined Undefined
            (r_some {| o_compression := Str "true"; o_dpi := Undefined;
                       o_quality := Undefined |}) []) = [] ++ ext /\
     existsb is_spawn ext = false) /\
  (exists ext,
     snd (generatePdf (calm [stdout_data [Byte.x25; Byte.x50]; close_event (Some 0)])
            (Str "example.com") "1-abc" Undefined r_undefined r_undefined Undefined
            (r_some {| o_compression := Bool true; o_dpi := Undefined;
                       o_quality := Undefined |}) []) = [] ++ ext /\
     existsb is_rendered ext = true).
Proof.
  split.
  - destruct (generatePdf_compresses_iff_loosely_true (calm sample_events)
                (Str "example.com") "1-abc" Undefined r_undefined r_undefined Undefined
                (r_some {| o_compression := Str "true"; o_dpi := Undefined;
                           o_quality := Undefined |}) [])
      as (ext & Hext & _ & H & _).
    exists ext. split; [exact Hext|]. exact (proj1 (H _ eq_refl eq_refl)).
  - destruct (generatePdf_compresses_iff_loosely_true
                (calm [stdout_data [Byte.x25; Byte.x50]; close_event (Some 0)])
                (Str "example.com") "1-abc" Undefined r_undefined r_undefined Undefined
                (r_some {| o_compression := Bool true; o_dpi := Undefined;
                           o_quality := Undefined |}) [])
      as (ext & Hext & _ & _ & H & _ & _).
    exists ext. split; [exact Hext|].
    exact (H [Byte.x25; Byte.x50] eq_refl).
Defined.

(** What [==] makes of some values of [compression]. *)
Example loose_eq_true_examples :
  loose_eq (Str "true") (Bool true) = false /\
  loose_eq (Str "1") (Bool true) = true /\
  loose_eq (Number (Number_of_Z 1)) (Bool true) = true /\
  loose_eq (Str "yes") (Bool true) = false /\
  loose_eq Null (Bool true) = false /\
  ToBoolean (Str "true") = true.
Proof. repeat split; reflexivity. Qed.

Lemma find_first {A} (f : A -> bool) (l : list A) (m : A) :
  find f l = Some m ->
  exists pre post,
    l = pre ++ m :: post /\ (forall x, In x pre -> f x = false) /\ f m = true.
Proof.
  induction l as [|a l IH]; [discriminate|].
  cbn [find]. destruct (f a) eqn:Ha.
  - intros [= ->]. exists [], l. repeat split; [intros x []|exact Ha].
  - intros H. destruct (IH H) as (pre & post & -> & Hpre & Hm).
    exists (a :: pre), post. repeat split; [|exact Hm].
    intros x [<-|Hx]; [exact Ha|now apply Hpre].
Qed.

(** C5.  With a non-empty rule list, a call that navigates has enabled
    interception and registered the listener for these rules before.  The
    listener answers a request whose URL includes the [apiUrl] of some
    rule with status 200, the JSON content type and the serialized
    [apiBody] of the first such rule, and continues every other request. *)
Theorem generatePdf_intercepts_first_match :
  forall (w : world) (url : value) (requestId : string) (timeout : value)
         (rules : list rule) (cookies : ref (list cookie))
         (selector : value) (pdfOptions : ref pdf_options) (t : trace),
    rules <> [] ->
    (exists ext,
       snd (generatePdf w url requestId timeout (r_some rules) cookies selector
              pdfOptions t) = t ++ ext /\
       (existsb is_goto ext = true ->
        exists pre post,
          ext = pre ++ [ logged (setRequestInterception true) returned;
                         logged (on_request rules) returned ] ++ post /\
          existsb is_goto pre = false)) /\
    forall req : request,
      r_isInterceptResolutionHandled req = false ->
      ((exists m, In m rules /\ includes (r_url req) (apiUrl m) = true) ->
       exists pre m post,
         rules = pre ++ m :: post /\
         (forall x, In x pre -> includes (r_url req) (apiUrl x) = false) /\
         includes (r_url req) (apiUrl m) = true /\
         request_listener rules req =
           respond {| m_status := 200;
                      m_contentType := "application/json; charset=utf-8";
                      m_body := JSON_stringify (apiBody m) |}) /\
      ((forall m, In m rules -> includes (r_url req) (apiUrl m) = false) ->
       request_listener rules req = continue).
Proof.
  intros w url rid timeout rules cookies selector pdfOptions t Hrules. split.
  - destruct rules as [|r0 rules]; [congruence|].
    paths; extension.
    all: try match goal with
         | H : has_requests (r_some (_ :: _)) = false |- _ => discriminate H
         end.
    all: try (intros H; discriminate H).
    all: intros _;
      match goal with
      | |- exists pre post, ?l = _ /\ _ =>
          exists (before is_interception l), (tl (tl (from is_interception l)));
          split; reflexivity
      end.
  - intros req Hreq. unfold request_listener. rewrite Hreq. split.
    + intros [m [Hin Hm]].
      destruct (find (fun r => includes (r_url req) (apiUrl r)) rules) as [m'|] eqn:E.
      * destruct (find_first _ _ _ E) as (pre & post & Hl & Hpre & Hm').
        exists pre, m', post. repeat split; assumption.
      * now rewrite (find_none _ _ E m Hin) in Hm.
    + intros Hnone.
      destruct (find (fun r => includes (r_url req) (apiUrl r)) rules) as [m'|] eqn:E;
        [|reflexivity].
      destruct (find_some _ _ E) as [Hin Hm]. now rewrite (Hnone _ Hin) in Hm.
Qed.

Lemma generatePdf_intercepts_first_match_witness :
  exists pre m post,
    sample_rules = pre ++ m :: post /\
    (forall x, In x pre -> includes "http://host/api/x?id=1" (apiUrl x) = false) /\
    includes "http://host/api/x?id=1" (apiUrl m) = true /\
    request_listener sample_rules
      {| r_url := "http://host/api/x?id=1"; r_isInterceptResolutionHandled := false |}
    = respond {| m_status := 200;
                 m_contentType := "application/json; charset=utf-8";
                 m_body := JSON_stringify (apiBody m) |}.
Proof.
  assert (Hne : sample_rules <> []) by (unfold sample_rules; discriminate).
  refine (proj1 (proj2 (generatePdf_intercepts_first_match (calm [])
                          (Str "example.com") "1-abc" Undefined sample_rules
                          r_undefined Undefined r_undefined [] Hne)
                   {| r_url := "http://host/api/x?id=1";
                      r_isInterceptResolutionHandled := false |} eq_refl) _).
  exists {| apiUrl := "/api/x";
            apiBody := j_object [("a", j_number (Number_of_Z 1))] |}.
  split; [left|]; reflexivity.
Defined.

(** The two examples of the specification. *)
Example request_listener_examples :
  request_listener
    [ {| apiUrl := "/api/x"; apiBody := j_object [("a", j_number (Number_of_Z 1))] |} ]
    {| r_url := "https://host/api/x/1"; r_isInterceptResolutionHandled := false |}
  = respond (mock_of {| apiUrl := "/api/x";
                        apiBody := j_object [("a", j_number (Number_of_Z 1))] |}) /\
  request_listener
    [ {| apiUrl := "/api/x"; apiBody := j_object [("a", j_number (Number_of_Z 1))] |} ]
    {| r_url := "https://host/style.css"; r_isInterceptResolutionHandled := false |}
  = continue.
Proof. split; reflexivity. Qed.

(** ** The router *)

(** A call of [generatePdf] starts by asking the browser for a page. *)
Lemma generatePdf_calls_newPage
    (w : world) (url : value) (requestId : string) (timeout : value)
    (requests : ref (list rule)) (cookies : ref (list cookie))
    (selector : value) (pdfOptions : ref pdf_options) (t : trace) :
  exists st rest,
    snd (generatePdf w url requestId timeout requests cookies selector pdfOptions t)
      = t ++ logged newPage st :: rest.
Proof. paths; do 2 eexists; reflexivity. Qed.

Lemma app_cons_neq {A} (t rest : list A) (x : A) : t ++ x :: rest <> t.
Proof.
  intros H. apply (f_equal (@List.length A)) in H.
  rewrite length_app in H. cbn in H. lia.
Qed.

Lemma post_generateReport_falsy_url (w : world) (body : report_body)
    (requestId : string) (t : trace) :
  ToBoolean (b_url body) = false ->
  post_generateReport w body requestId t
    = (Ret (send_text 400 missing_url_message), t).
Proof. intros H. unfold post_generateReport. now rewrite H. Qed.

(** C7.  A body without [url] is answered with status 400 and the trace is
    left as it was: no page was asked for, whereas any call of
    [generatePdf] would have asked for one. *)
Theorem post_generateReport_missing_url :
  forall (w : world) (body : report_body) (requestId : string) (t : trace),
    b_url body = Undefined ->
    post_generateReport w body requestId t
      = (Ret {| h_status := 400; h_contentType := None;
                h_body := text missing_url_message |}, t) /\
    forall url rid timeout requests cookies selector pdfOptions,
      snd (generatePdf w url rid timeout requests cookies selector pdfOptions t) <> t.
Proof.
  intros w body rid t H. split.
  - apply post_generateReport_falsy_url. now rewrite H.
  - intros url rid' timeout requests cookies selector pdfOptions.
    destruct (generatePdf_calls_newPage w url rid' timeout requests cookies selector
                pdfOptions t) as (st & rest & ->).
    apply app_cons_neq.
Qed.

Lemma post_generateReport_missing_url_witness :
  post_generateReport (calm []) empty_body "1-abc" []
    = (Ret {| h_status := 400; h_contentType := None;
              h_body := text missing_url_message |}, []) /\
  forall url rid timeout requests cookies selector pdfOptions,
    snd (generatePdf (calm []) url rid timeout requests cookies selector pdfOptions [])
      <> [].
Proof. apply post_generateReport_missing_url. reflexivity. Defined.

Lemma length_zero_iff {A} (l : list A) : Nat.eqb (List.length l) 0 = true <-> l = [].
Proof. destruct l; cbn; split; congruence. Qed.

Lemma post_compressPdf_eq (w : world) (dpi_param : string) (chunks : list buffer)
    (requestId : string) (t : trace) :
  Buffer_concat chunks <> [] ->
  let t' := t ++ spawn_entries (used_dpi (Number (parseInt dpi_param 10))) n95
                               (Buffer_concat chunks) in
  post_compressPdf w dpi_param chunks requestId t =
  (match gs_promise (child_events w t') with
   | Ret b => Ret (send_pdf b)
   | Throw _ => Ret (send_text 500 "Error compressing PDF")
   | Hang => Hang
   end, t').
Proof.
  intros H t'. unfold post_compressPdf.
  destruct (Nat.eqb (List.length (Buffer_concat chunks)) 0) eqn:E.
  - now apply length_zero_iff in E.
  - rewrite try_bind_compress. cbv zeta. subst t'.
    change (used_jpegQuality Undefined) with n95.
    destruct (gs_promise _); reflexivity.
Qed.

(** C8.  What is dispatched is the concatenation of all the chunks of the
    request body.  When it is empty the answer is status 400 and the trace
    is left as it was, whereas any call of [compressPdfBuffer] would have
    spawned the child process; otherwise the whole body is written to the
    standard input of the child process. *)
Theorem post_compressPdf_empty_body :
  forall (w : world) (dpi_param : string) (chunks : list buffer)
         (requestId : string) (t : trace),
    (Buffer_concat chunks = [] ->
     post_compressPdf w dpi_param chunks requestId t
       = (Ret {| h_status := 400; h_contentType := None;
                 h_body := text "No file uploaded or file is empty." |}, t)) /\
    (Buffer_concat chunks <> [] ->
     exists dpi q,
       snd (post_compressPdf w dpi_param chunks requestId t)
         = t ++ [ logged (spawn "gs" (gs_args dpi q)) returned;
                  logged (stdin_write (Buffer_concat chunks)) returned;
                  logged stdin_end returned ]) /\
    (forall pdfBuffer dpi q, snd (compressPdfBuffer w pdfBuffer dpi q t) <> t).
Proof.
  intros w dpi_param chunks rid t. split; [|split].
  - intros H. unfold post_compressPdf. now rewrite H.
  - intros H. rewrite (post_compressPdf_eq _ _ _ _ _ H). cbn [snd].
    now exists (used_dpi (Number (parseInt dpi_param 10))), n95.
  - intros b dpi q. rewrite compressPdfBuffer_eq. cbn [snd spawn_entries].
    apply app_cons_neq.
Qed.

Lemma post_compressPdf_empty_body_witness :
  post_compressPdf (calm sample_events) "150" [[]; []] "1-abc" []
    = (Ret {| h_status := 400; h_contentType := None;
              h_body := text "No file uploaded or file is empty." |}, []).
Proof.
  apply (proj1 (post_compressPdf_empty_body (calm sample_events) "150" [[]; []]
                  "1-abc" [])).
  reflexivity.
Defined.

Lemma digit_val_not_digit (c : ascii) : is_digit c = false -> digit_val 10 c = None.
Proof.
  unfold is_digit, digit_val. intros H. rewrite H.
  destruct ((97 <=? code c) && (code c <=? 122)) eqn:E1.
  - apply andb_true_iff in E1 as [E1 _]. apply Z.leb_le in E1.
    now rewrite (proj2 (Z.ltb_ge _ _)) by lia.
  - destruct ((65 <=? code c) && (code c <=? 90)) eqn:E2; [|reflexivity].
    apply andb_true_iff in E2 as [E2 _]. apply Z.leb_le in E2.
    now rewrite (proj2 (Z.ltb_ge _ _)) by lia.
Qed.

Lemma trim_start_no_digit (l : list ascii) :
  no_digit l = true -> no_digit (trim_start l) = true.
Proof.
  induction l as [|c l IH]; [trivial|]. intros H. cbn [trim_start].
  destruct (is_white c); [|exact H].
  apply IH. cbn in H. now apply andb_true_iff in H.
Qed.

Lemma take_digits_no_digit (l : list ascii) :
  no_digit l = true -> fst (take_digits 10 l) = [].
Proof.
  destruct l as [|c l]; [trivial|]. cbn [no_digit forallb]. intros H.
  apply andb_true_iff in H as [H _]. apply negb_true_iff in H.
  cbn [take_digits]. now rewrite (digit_val_not_digit _ H).
Qed.

Lemma strip_sign_no_digit (l : list ascii) :
  no_digit l = true -> no_digit (snd (strip_sign l)) = true.
Proof.
  destruct l as [|c l]; [trivial|]. intros H.
  assert (Hl : no_digit l = true) by (cbn in H; now apply andb_true_iff in H).
  destruct c as [[] [] [] [] [] [] [] []]; first [exact H | exact Hl].
Qed.

Lemma no_prefix_radix_10 (S1 : list ascii) :
  match S1 with
  | "0"%char :: x :: r =>
      if false && ((code x =? 120) || (code x =? 88)) then (16, r) else (10, S1)
  | _ => (10, S1)
  end = (10, S1).
Proof.
  destruct S1 as [|c [|x r]]; try reflexivity;
    destruct c as [[] [] [] [] [] [] [] []]; reflexivity.
Qed.

(** A string without any decimal digit parses to NaN. *)
Lemma parseInt_no_digit (s : string) :
  no_digit (list_ascii_of_string s) = true -> parseInt s 10 = NaN.
Proof.
  intros H. unfold parseInt.
  apply trim_start_no_digit, strip_sign_no_digit in H.
  destruct (strip_sign (trim_start (list_ascii_of_string s))) as [neg S1].
  cbn [snd] in H.
  change (negb (10 =? 0) && ((10 <? 2) || (36 <? 10))) with false.
  change ((10 =? 0) || (10 =? 16)) with false.
  change (if 10 =? 0 then 10 else 10) with 10.
  cbv iota zeta. rewrite no_prefix_radix_10.
  apply take_digits_no_digit in H.
  destruct (take_digits 10 S1) as [ds rest]. cbn [fst] in H. now subst ds.
Qed.

(** Leading digits are enough for [parseInt]; surrounding text is ignored. *)
Example parseInt_examples :
  parseInt "150" 10 = Number_of_Z 150 /\
  parseInt "12abc" 10 = Number_of_Z 12 /\
  parseInt "  -7" 10 = Number_of_Z (-7) /\
  parseInt "abc" 10 = NaN /\
  parseInt "" 10 = NaN /\
  used_dpi (Number (parseInt "7000" 10)) = Number_of_Z 600 /\
  used_dpi (Number (parseInt "-7" 10)) = Number_of_Z 10 /\
  used_dpi (Number (parseInt "72" 10)) = Number_of_Z 72.
Proof. repeat split; reflexivity. Qed.

(** ** What [parseInt] reads in radix 10 *)

Lemma shr_1_nonneg (mrs : shr_record) : 0 <= shr_m mrs -> 0 <= shr_m (shr_1 mrs).
Proof.
  destruct mrs as [m r s]. cbn [shr_m]. intros H.
  destruct m as [|[p|p|]|p]; cbn; lia.
Qed.

Lemma iter_pos_shr_1_nonneg (p : positive) (mrs : shr_record) :
  0 <= shr_m mrs -> 0 <= shr_m (iter_pos shr_1 p mrs).
Proof.
  revert mrs. induction p as [p IH|p IH|]; intros mrs H; cbn [iter_pos].
  - apply IH, IH, shr_1_nonneg, H.
  - apply IH, IH, H.
  - apply shr_1_nonneg, H.
Qed.

Lemma shr_fexp_nonneg (m e : Z) (l : location) :
  0 <= m -> 0 <= shr_m (fst (shr_fexp prec emax m e l)).
Proof.
  intros H. unfold shr_fexp, shr.
  assert (H0 : 0 <= shr_m (shr_record_of_loc m l)) by (destruct l as [|[]]; exact H).
  destruct (fexp prec emax (Zdigits2 m + e) - e); cbn [fst]; try exact H0.
  now apply iter_pos_shr_1_nonneg.
Qed.

Lemma round_nearest_even_nonneg (m : Z) (l : location) :
  0 <= m -> 0 <= round_nearest_even m l.
Proof.
  intros H. destruct l as [|[]]; cbn [round_nearest_even]; try lia.
  destruct (Z.even m); lia.
Qed.

(** Rounding an integer never gives NaN. *)
Lemma binary_round_not_NaN (sx : bool) (mx : positive) (ex : Z) :
  isNaN (binary_round prec emax sx mx ex) = false.
Proof.
  unfold binary_round.
  destruct (shl_align mx ex _) as [mz ez].
  unfold binary_round_aux.
  pose proof (shr_fexp_nonneg (Zpos mz) ez loc_Exact ltac:(lia)) as H1.
  destruct (shr_fexp prec emax (Zpos mz) ez loc_Exact) as [mrs' e'].
  cbn [fst] in H1.
  pose proof (shr_fexp_nonneg
                (round_nearest_even (shr_m mrs') (loc_of_shr_record mrs')) e' loc_Exact
                (round_nearest_even_nonneg _ _ H1)) as H2.
  destruct (shr_fexp prec emax _ e' loc_Exact) as [mrs'' e''].
  cbn [fst] in H2.
  destruct (shr_m mrs'') as [|m|m]; [reflexivity| |lia].
  destruct (e'' <=? emax - prec); reflexivity.
Qed.

Lemma binary_normalize_not_NaN (m e : Z) (szero : bool) :
  isNaN (binary_normalize prec emax m e szero) = false.
Proof.
  destruct m; [reflexivity| |]; apply binary_round_not_NaN.
Qed.

(** [parseInt(s, 10)] in terms of the digits it reads. *)
Lemma parseInt_10 (s : string) :
  parseInt s 10 =
  match leading_digits s with
  | [] => NaN
  | ds =>
      let neg := fst (strip_sign (trim_start (list_ascii_of_string s))) in
      binary_normalize prec emax
        (if neg then - digits_value 10 ds else digits_value 10 ds) 0 neg
  end.
Proof.
  unfold parseInt, leading_digits.
  destruct (strip_sign (trim_start (list_ascii_of_string s))) as [neg S1].
  cbn [fst snd].
  change (negb (10 =? 0) && ((10 <? 2) || (36 <? 10))) with false.
  change ((10 =? 0) || (10 =? 16)) with false.
  change (if 10 =? 0 then 10 else 10) with 10.
  cbv iota zeta. rewrite no_prefix_radix_10.
  destruct (take_digits 10 S1) as [[|d ds] rest]; reflexivity.
Qed.

Lemma parseInt_10_NaN (s : string) :
  parseInt s 10 = NaN <-> leading_digits s = [].
Proof.
  rewrite parseInt_10. destruct (leading_digits s) as [|d ds].
  - split; reflexivity.
  - split; [|discriminate]. intros H. cbv zeta in H.
    pose proof (binary_normalize_not_NaN
                  (if fst (strip_sign (trim_start (list_ascii_of_string s)))
                   then - digits_value 10 (d :: ds) else digits_value 10 (d :: ds))
                  0 (fst (strip_sign (trim_start (list_ascii_of_string s))))) as Hn.
    rewrite H in Hn. discriminate Hn.
Qed.

(** C9, as the code has it.  Whatever the request, a non-empty body is
    compressed with the resolution parsed from the path segment and with
    JPEG quality 95.  The path segment parses to NaN exactly when no decimal
    digit follows its leading white space and optional sign; the clamp
    leaves NaN as it is, so that the resolution handed to Ghostscript is
    NaN, outside [10, 600].  A segment with leading digits is parsed from
    these digits, whatever follows them, and its resolution is clamped into
    [10, 600]. *)
Theorem post_compressPdf_default_quality_and_leading_digits :
  forall (w : world) (dpi_param : string) (chunks : list buffer)
         (requestId : string) (t : trace),
    Buffer_concat chunks <> [] ->
    snd (post_compressPdf w dpi_param chunks requestId t)
      = t ++ [ logged (spawn "gs"
                         (gs_args (used_dpi (Number (parseInt dpi_param 10)))
                                  (Number_of_Z 95))) returned;
               logged (stdin_write (Buffer_concat chunks)) returned;
               logged stdin_end returned ] /\
    In (tpl "-dJPEGQuality=" (Number_of_Z 95))
       (gs_args (used_dpi (Number (parseInt dpi_param 10))) (Number_of_Z 95)) /\
    (parseInt dpi_param 10 = NaN <-> leading_digits dpi_param = []) /\
    (leading_digits dpi_param = [] ->
     used_dpi (Number (parseInt dpi_param 10)) = NaN /\
     between (Number_of_Z 10) (Number_of_Z 600)
             (used_dpi (Number (parseInt dpi_param 10))) = false) /\
    (leading_digits dpi_param <> [] ->
     between (Number_of_Z 10) (Number_of_Z 600)
             (used_dpi (Number (parseInt dpi_param 10))) = true).
Proof.
  intros w dpi_param chunks rid t H. split; [|split; [|split; [|split]]].
  - now rewrite (post_compressPdf_eq _ _ _ _ _ H).
  - cbn [gs_args In]. auto 20.
  - apply parseInt_10_NaN.
  - intros Hd. rewrite (proj2 (parseInt_10_NaN _) Hd). split; reflexivity.
  - intros Hd. apply used_dpi_in_range. cbn [default ToNumber].
    destruct (isNaN (parseInt dpi_param 10)) eqn:E; [|reflexivity].
    exfalso. apply Hd, parseInt_10_NaN.
    destruct (parseInt dpi_param 10); try discriminate E. reflexivity.
Qed.

Lemma post_compressPdf_default_quality_and_leading_digits_witness :
  snd (post_compressPdf (calm sample_events) "abc12" [pdf_signature] "1-abc" [])
    = [ logged (spawn "gs" (gs_args NaN (Number_of_Z 95))) returned;
        logged (stdin_write pdf_signature) returned;
        logged stdin_end returned ].
Proof.
  destruct (post_compressPdf_default_quality_and_leading_digits (calm sample_events)
              "abc12" [pdf_signature] "1-abc" []) as (H1 & _ & _ & H3 & _).
  - discriminate.
  - destruct (H3 eq_refl) as (H4 & _). rewrite H1, H4. reflexivity.
Defined.

(** C9, against the specification's wording: the path segment 12abc is not
    numeric, yet it parses to 12, not to NaN, and the resolution handed to
    Ghostscript is 12. *)
Lemma post_compressPdf_non_numeric_dpi_counterexample :
  spec_numeric_segment "12abc" = false /\
  parseInt "12abc" 10 = Number_of_Z 12 /\
  isNaN (parseInt "12abc" 10) = false /\
  snd (post_compressPdf (calm sample_events) "12abc" [pdf_signature] "1-abc" [])
    = [ logged (spawn "gs" (gs_args (Number_of_Z 12) (Number_of_Z 95))) returned;
        logged (stdin_write pdf_signature) returned;
        logged stdin_end returned ] /\
  between (Number_of_Z 10) (Number_of_Z 600) (Number_of_Z 12) = true /\
  ~ (forall s, spec_numeric_segment s = false -> parseInt s 10 = NaN).
Proof.
  split; [|split; [|split; [|split; [|split]]]]; try reflexivity.
  intros H. discriminate (H "12abc" eq_refl).
Qed.

(** ** More on the clamp of the compression adapter *)

Lemma SFcompare_Eq_finite (s1 s2 : bool) (m1 m2 : positive) (e1 e2 : Z) :
  SFcompare (S754_finite s1 m1 e1) (S754_finite s2 m2 e2) = Some Eq ->
  S754_finite s1 m1 e1 = S754_finite s2 m2 e2.
Proof.
  cbn [SFcompare]. intros H.
  destruct s1, s2; try discriminate;
    destruct (Z.compare e1 e2) eqn:E; try discriminate;
    apply Z.compare_eq in E; subst e2;
    destruct (Pos.compare_cont Eq m1 m2) eqn:P; try discriminate;
    apply Pos.compare_eq in P; now subst m2.
Qed.

(** A Number that compares equal to a finite non-zero one is that one. *)
Lemma SFcompare_Eq_eq (x : number) (s : bool) (m : positive) (e : Z) :
  SFcompare x (S754_finite s m e) = Some Eq -> x = S754_finite s m e.
Proof.
  destruct x as [sx|sx| |sx mx ex]; cbn [SFcompare]; try discriminate.
  - destruct s; discriminate.
  - destruct sx; discriminate.
  - apply SFcompare_Eq_finite.
Qed.

Lemma SFcompare_Eq_eq_l (x : number) (s : bool) (m : positive) (e : Z) :
  SFcompare (S754_finite s m e) x = Some Eq -> x = S754_finite s m e.
Proof.
  destruct x as [sx|sx| |sx mx ex]; cbn [SFcompare]; try discriminate.
  - destruct s; discriminate.
  - destruct sx; discriminate.
  - intros H. symmetry. now apply SFcompare_Eq_finite.
Qed.

(** The clamp of the source, between two finite non-zero bounds, leaves a
    Number of the range as it is. *)
Lemma clamp_identity (sl sh : bool) (ml mh : positive) (el eh : Z) (x : number) :
  let lo := S754_finite sl ml el in
  let hi := S754_finite sh mh eh in
  between lo hi x = true ->
  (let m := if SFltb x hi then x else hi in
   if isNaN m then NaN else if SFltb lo m then m else lo) = x.
Proof.
  intros lo hi H. unfold between in H. apply andb_true_iff in H as [Hlo Hhi].
  assert (Hm : (if SFltb x hi then x else hi) = x).
  { unfold SFltb. unfold SFleb in Hhi.
    destruct (SFcompare x hi) as [[]|] eqn:E; try discriminate; try reflexivity.
    symmetry. now apply SFcompare_Eq_eq. }
  cbv zeta. rewrite Hm.
  destruct x as [sx|sx| |sx mx ex]; try discriminate Hlo; cbn [isNaN];
    unfold SFltb; unfold SFleb in Hlo;
    match goal with
    | |- context [SFcompare lo ?y] =>
        destruct (SFcompare lo y) as [[]|] eqn:E; try discriminate; try reflexivity;
        symmetry; now apply SFcompare_Eq_eq_l
    end.
Qed.

(** X1.  A resolution that is a Number between 10 and 600, and a quality
    that is a Number between 1 and 100, are used unchanged. *)
Theorem used_values_unchanged_in_range :
  forall x : number,
    (between (Number_of_Z 10) (Number_of_Z 600) x = true ->
     used_dpi (Number x) = x) /\
    (between (Number_of_Z 1) (Number_of_Z 100) x = true ->
     used_jpegQuality (Number x) = x).
Proof.
  intros x. split; intros H.
  - unfold used_dpi, Math_max, Math_min. cbn [map ToNumber default]. fold n10 n600.
    rewrite min_from_600, max_from_10.
    assert (Hx : isNaN x = false) by (destruct x; try reflexivity; discriminate H).
    rewrite Hx. exact (clamp_identity _ _ _ _ _ _ x H).
  - unfold used_jpegQuality, Math_max, Math_min. cbn [map ToNumber default]. fold n1 n100.
    rewrite min_from_100, max_from_1.
    assert (Hx : isNaN x = false) by (destruct x; try reflexivity; discriminate H).
    rewrite Hx. exact (clamp_identity _ _ _ _ _ _ x H).
Qed.

Lemma used_values_unchanged_in_range_witness :
  used_dpi (Number (StringToNumber "72.5")) = StringToNumber "72.5" /\
  used_jpegQuality (Number (Number_of_Z 100)) = Number_of_Z 100.
Proof.
  split.
  - apply (proj1 (used_values_unchanged_in_range (StringToNumber "72.5"))).
    reflexivity.
  - apply (proj2 (used_values_unchanged_in_range (Number_of_Z 100))).
    reflexivity.
Defined.

Lemma SFcompare_antisym (a b : number) :
  SFcompare b a = match SFcompare a b with
                  | Some c => Some (CompOpp c)
                  | None => None
                  end.
Proof.
  destruct a as [sa|sa| |sa ma ea], b as [sb|sb| |sb mb eb]; cbn [SFcompare];
    try reflexivity; try (destruct sa; reflexivity); try (destruct sb; reflexivity);
    try (destruct sa, sb; reflexivity).
  destruct sa, sb; try reflexivity;
    rewrite (Z.compare_antisym ea eb); destruct (Z.compare ea eb); cbn [CompOpp];
    try reflexivity;
    now rewrite (Pos.compare_cont_antisym ma mb Eq).
Qed.

Lemma SFltb_asym (a b : number) : SFltb a b = true -> SFltb b a = false.
Proof.
  unfold SFltb. rewrite (SFcompare_antisym a b).
  destruct (SFcompare a b) as [[]|]; cbn; congruence.
Qed.

(** Below a positive bound is below any bound with a larger exponent. *)
Lemma SFltb_below (x : number) (ml mh : positive) (el eh : Z) :
  el < eh ->
  SFltb x (S754_finite false ml el) = true ->
  SFltb x (S754_finite false mh eh) = true.
Proof.
  intros He. unfold SFltb.
  destruct x as [sx|sx| |sx mx ex]; cbn [SFcompare]; try (intros; reflexivity);
    try discriminate.
  - destruct sx; [reflexivity|discriminate].
  - destruct sx; [reflexivity|].
    destruct (Z.compare_spec ex el) as [E|E|E]; try discriminate.
    + intros _. subst ex. now rewrite (proj2 (Z.compare_lt_iff el eh)).
    + intros _. now rewrite (proj2 (Z.compare_lt_iff ex eh)) by lia.
Qed.

(** X2.  A Number above the upper bound is replaced by the bound, a Number
    below the lower bound is replaced by the lower bound; this includes
    the infinities, zero and the negative Numbers. *)
Theorem used_values_saturate :
  forall x : number,
    (SFltb (Number_of_Z 600) x = true -> used_dpi (Number x) = Number_of_Z 600) /\
    (SFltb x (Number_of_Z 10) = true -> used_dpi (Number x) = Number_of_Z 10) /\
    (SFltb (Number_of_Z 100) x = true ->
     used_jpegQuality (Number x) = Number_of_Z 100) /\
    (SFltb x (Number_of_Z 1) = true -> used_jpegQuality (Number x) = Number_of_Z 1).
Proof.
  intros x.
  assert (Hnan : forall a, SFltb a x = true \/ SFltb x a = true -> isNaN x = false).
  { intros a [H|H]; destruct x; try reflexivity; destruct a; discriminate H. }
  unfold used_dpi, used_jpegQuality, Math_max, Math_min.
  cbn [map ToNumber default]. fold n10 n600 n1 n100.
  rewrite min_from_600, max_from_10, min_from_100, max_from_1.
  repeat split; intros H.
  - rewrite (Hnan _ (or_introl H)), (SFltb_asym _ _ H). reflexivity.
  - rewrite (Hnan _ (or_intror H)).
    rewrite (SFltb_below x _ _ (-49) (-43) eq_refl H : SFltb x n600 = true).
    now rewrite (Hnan _ (or_intror H)), (SFltb_asym _ _ H).
  - rewrite (Hnan _ (or_introl H)), (SFltb_asym _ _ H). reflexivity.
  - rewrite (Hnan _ (or_intror H)).
    rewrite (SFltb_below x _ _ (-52) (-46) eq_refl H : SFltb x n100 = true).
    now rewrite (Hnan _ (or_intror H)), (SFltb_asym _ _ H).
Qed.

Lemma used_values_saturate_witness :
  used_dpi (Number pInfinity) = Number_of_Z 600 /\
  used_dpi (Number (Number_of_Z (-300))) = Number_of_Z 10 /\
  used_jpegQuality (Number (Number_of_Z 101)) = Number_of_Z 100 /\
  used_jpegQuality (Number (S754_zero true)) = Number_of_Z 1.
Proof.
  split; [|split; [|split]].
  - apply (proj1 (used_values_saturate pInfinity)). reflexivity.
  - apply (proj1 (proj2 (used_values_saturate (Number_of_Z (-300))))). reflexivity.
  - apply (proj1 (proj2 (proj2 (used_values_saturate (Number_of_Z 101))))).
    reflexivity.
  - apply (proj2 (proj2 (proj2 (used_values_saturate (S754_zero true))))).
    reflexivity.
Defined.

(** X3.  Clamping is idempotent: the values [compressPdfBuffer] uses are
    fixed points of its two clamps, NaN included. *)
Theorem used_values_idempotent :
  forall v : value,
    used_dpi (Number (used_dpi v)) = used_dpi v /\
    used_jpegQuality (Number (used_jpegQuality v)) = used_jpegQuality v.
Proof.
  intros v. split.
  - destruct (isNaN (ToNumber (default (Number n150) v))) eqn:E.
    + rewrite (used_dpi_NaN v E). reflexivity.
    + apply (proj1 (used_values_unchanged_in_range _)). now apply used_dpi_in_range.
  - destruct (isNaN (ToNumber (default (Number n95) v))) eqn:E.
    + assert (H : used_jpegQuality v = NaN).
      { unfold used_jpegQuality, Math_max, Math_min. cbn [map ToNumber].
        fold n1 n100 n95. now rewrite min_from_100, E. }
      rewrite H. reflexivity.
    + apply (proj2 (used_values_unchanged_in_range _)).
      now apply used_jpegQuality_in_range.
Qed.

(** X4.  An absent resolution or quality takes the default, 150 or 95; an
    explicit [null] does not: it counts as 0 and is raised to the lower
    bound, and so is a Boolean. *)
Theorem used_values_of_absent_and_null :
  used_dpi Undefined = Number_of_Z 150 /\
  used_jpegQuality Undefined = Number_of_Z 95 /\
  used_dpi Null = Number_of_Z 10 /\
  used_jpegQuality Null = Number_of_Z 1 /\
  (forall b, used_dpi (Bool b) = Number_of_Z 10 /\
             used_jpegQuality (Bool b) = Number_of_Z 1).
Proof. repeat split; try reflexivity; destruct b; reflexivity. Qed.

(** Strings are converted as numeric literals. *)
Example used_dpi_of_strings :
  used_dpi (Str "300") = Number_of_Z 300 /\
  used_dpi (Str " 72 ") = Number_of_Z 72 /\
  used_dpi (Str "") = Number_of_Z 10 /\
  used_dpi (Str "1e3") = Number_of_Z 600 /\
  used_dpi (Str "300dpi") = NaN.
Proof. vm_compute. repeat split. Qed.

(** X22.  The extent of the NaN defect: the resolution (the quality) handed
    to Ghostscript is out of range exactly when the argument, after the
    default, converts to NaN; this is the case of [NaN] itself and of
    every string that is not a numeric literal. *)
Theorem used_values_out_of_range_iff_NaN :
  forall v : value,
    (between (Number_of_Z 10) (Number_of_Z 600) (used_dpi v) = false <->
     isNaN (ToNumber (default (Number (Number_of_Z 150)) v)) = true) /\
    (between (Number_of_Z 1) (Number_of_Z 100) (used_jpegQuality v) = false <->
     isNaN (ToNumber (default (Number (Number_of_Z 95)) v)) = true).
Proof.
  intros v. split; split.
  - intros H. destruct (isNaN _) eqn:E; [reflexivity|].
    fold n150 in E. pose proof (used_dpi_in_range v E) as R.
    unfold n10, n600 in R. congruence.
  - intros H. fold n150 in H. now rewrite (used_dpi_NaN v H).
  - intros H. destruct (isNaN _) eqn:E; [reflexivity|].
    fold n95 in E. pose proof (used_jpegQuality_in_range v E) as R.
    unfold n1, n100 in R. congruence.
  - intros H. unfold used_jpegQuality, Math_max, Math_min. cbn [map ToNumber].
    fold n1 n100 n95. fold n95 in H. now rewrite min_from_100, H.
Qed.

(** ** More on the render adapter *)

(** X5.  Nothing is retried: one call of [generatePdf] asks for one page,
    navigates at most once, renders at most once, spawns Ghostscript at
    most once and calls [page.close()] at most twice. *)
Theorem generatePdf_never_retries :
  forall (w : world) (url : value) (requestId : string) (timeout : value)
         (requests : ref (list rule)) (cookies : ref (list cookie))
         (selector : value) (pdfOptions : ref pdf_options) (t : trace),
  exists ext,
    snd (generatePdf w url requestId timeout requests cookies selector pdfOptions t)
      = t ++ ext /\
    calls is_newPage ext = 1%nat /\
    (calls is_setCookie ext <= 1)%nat /\
    (calls is_interception ext <= 1)%nat /\
    (calls is_wait ext <= 1)%nat /\
    (calls is_goto ext <= 1)%nat /\
    (calls is_pdf ext <= 1)%nat /\
    (calls is_spawn ext <= 1)%nat /\
    (calls is_close ext <= 2)%nat.
Proof.
  intros w url rid timeout requests cookies selector pdfOptions t.
  paths; extension; unfold calls; cbn; repeat split; lia.
Qed.

(** X6.  When [page.close()] rejects, so does [generatePdf], with the
    error of [page.close()]: a rendered or compressed buffer is lost and
    the error of a failed step is replaced. *)
Theorem generatePdf_close_failure_masks :
  forall (w : world) (url : value) (requestId : string) (timeout : value)
         (requests : ref (list rule)) (cookies : ref (list cookie))
         (selector : value) (pdfOptions : ref pdf_options) (t : trace)
         (closing : error),
    (forall t', page_reply w t' close = Throw closing) ->
    page_reply w t newPage = Ret tt ->
    fst (generatePdf w url requestId timeout requests cookies selector pdfOptions t)
      = Throw closing \/
    fst (generatePdf w url requestId timeout requests cookies selector pdfOptions t)
      = Hang.
Proof.
  intros w url rid timeout requests cookies selector pdfOptions t closing Hclose Hnew.
  paths; auto.
Qed.

Lemma generatePdf_close_failure_masks_witness :
  fst (generatePdf close_rejects (Str "example.com") "1-abc" Undefined
         r_undefined r_undefined Undefined r_undefined [])
    = Throw (Error "Protocol error") \/
  fst (generatePdf close_rejects (Str "example.com") "1-abc" Undefined
         r_undefined r_undefined Undefined r_undefined [])
    = Hang.
Proof.
  apply generatePdf_close_failure_masks; reflexivity.
Defined.

(** Replies that contradict what is assumed of the world. *)
Ltac impossible_reply Hpage Hpdf Hgs :=
  match goal with
  | H : page_reply _ _ _ = Throw _ |- _ => rewrite Hpage in H; discriminate H
  | H : page_reply _ _ _ = Hang |- _ => rewrite Hpage in H; discriminate H
  | H : pdf_reply _ ?t ?o = Throw _ |- _ =>
      destruct (Hpdf t o) as [? Hb]; rewrite Hb in H; discriminate H
  | H : pdf_reply _ ?t ?o = Hang |- _ =>
      destruct (Hpdf t o) as [? Hb]; rewrite Hb in H; discriminate H
  | H : gs_promise _ = Ret _ |- _ =>
      rewrite (gs_promise_pending _ (Hgs _)) in H; discriminate H
  | H : gs_promise _ = Throw _ |- _ =>
      rewrite (gs_promise_pending _ (Hgs _)) in H; discriminate H
  end.

(** X7.  Compression has no timeout.  When the page works and compression
    is asked for but the child process never emits 'close' nor 'error',
    [generatePdf] never comes back and never calls [page.close()]: the page
    stays open. *)
Theorem generatePdf_hangs_with_ghostscript :
  forall (w : world) (s : string) (requestId : string) (timeout : value)
         (requests : ref (list rule)) (cookies : ref (list cookie))
         (selector : value) (pdfOptions : ref pdf_options) (t : trace),
    (forall t' c, page_reply w t' c = Ret tt) ->
    (forall t' o, exists b, pdf_reply w t' o = Ret b) ->
    (forall t', forallb is_data (child_events w t') = true) ->
    wants_compression pdfOptions = true ->
    fst (generatePdf w (Str s) requestId timeout requests cookies selector
           pdfOptions t) = Hang /\
    exists ext,
      snd (generatePdf w (Str s) requestId timeout requests cookies selector
             pdfOptions t) = t ++ ext /\
      calls is_spawn ext = 1%nat /\
      calls is_close ext = 0%nat.
Proof.
  intros w s rid timeout requests cookies selector pdfOptions t Hpage Hpdf Hgs Hwants.
  paths; try congruence; try impossible_reply Hpage Hpdf Hgs.
  all: split; [reflexivity|]; extension; split; reflexivity.
Qed.

Lemma generatePdf_hangs_with_ghostscript_witness :
  fst (generatePdf (calm [stdout_data pdf_signature; stderr_data "..."])
         (Str "example.com") "1-abc" Undefined r_undefined r_undefined Undefined
         (r_some {| o_compression := Bool true; o_dpi := Undefined;
                    o_quality := Undefined |}) []) = Hang.
Proof.
  refine (proj1 (generatePdf_hangs_with_ghostscript
                   (calm [stdout_data pdf_signature; stderr_data "..."])
                   "example.com" "1-abc" Undefined r_undefined r_undefined Undefined
                   (r_some {| o_compression := Bool true; o_dpi := Undefined;
                              o_quality := Undefined |}) [] _ _ _ _)).
  - reflexivity.
  - intros t' o. now exists pdf_signature.
  - reflexivity.
  - reflexivity.
Defined.

(** X8.  When [page.close()] resolves, an exception of [generatePdf] is the
    very error of the step that failed, neither wrapped nor replaced: the
    error of [browser.newPage()] (and then nothing is closed), of the last
    page call before the close, of [page.pdf], of the compression, or the
    TypeError raised for a [url] that is not a string. *)
Theorem generatePdf_propagates_errors :
  forall (w : world) (url : value) (requestId : string) (timeout : value)
         (requests : ref (list rule)) (cookies : ref (list cookie))
         (selector : value) (pdfOptions : ref pdf_options) (t : trace) (e : error),
    (forall t', page_reply w t' close = Ret tt) ->
    fst (generatePdf w url requestId timeout requests cookies selector pdfOptions t)
      = Throw e ->
    exists ext,
      snd (generatePdf w url requestId timeout requests cookies selector pdfOptions t)
        = t ++ ext /\
      ((ext = [logged newPage threw] /\ page_reply w t newPage = Throw e) \/
       (exists pre c,
          ext = pre ++ [logged c threw; logged close returned] /\
          page_reply w (t ++ pre) c = Throw e) \/
       (exists pre o,
          ext = pre ++ [logged (pdf o) threw; logged close returned] /\
          pdf_reply w (t ++ pre) o = Throw e) \/
       (exists pre,
          ext = pre ++ [logged close returned] /\
          gs_promise (child_events w (t ++ pre)) = Throw e) \/
       (exists pre message,
          ext = pre ++ [logged close returned] /\
          e = TypeError message /\ forall s, url <> Str s)).
Proof.
  intros w url rid timeout requests cookies selector pdfOptions t e Hclose.
  paths; intros He; try discriminate He; injection He as <-; extension; flatten_all.
  all: first
    [ left; split; [reflexivity|first [assumption|reflexivity]]
    | right; left;
      match goal with
      | H : page_reply _ (_ ++ ?pre) ?c = Throw _ |- _ =>
          exists pre, c; split; [reflexivity|exact H]
      end
    | right; right; left;
      match goal with
      | H : pdf_reply _ (_ ++ ?pre) ?o = Throw _ |- _ =>
          exists pre, o; split; [reflexivity|exact H]
      end
    | right; right; right; left;
      match goal with
      | H : gs_promise (child_events _ (_ ++ ?pre)) = Throw _ |- _ =>
          exists pre; split; [reflexivity|exact H]
      end
    | right; right; right; right;
      match goal with
      | |- exists pre message, ?l = _ /\ _ =>
          exists (removelast l); eexists; split; [reflexivity|];
          split; [reflexivity|discriminate]
      end ].
Qed.

Lemma generatePdf_propagates_errors_witness :
  exists ext,
    snd (generatePdf (calm [close_event (Some 1)]) (Str "example.com") "1-abc"
           Undefined r_undefined r_undefined Undefined
           (r_some {| o_compression := Bool true; o_dpi := Undefined;
                      o_quality := Undefined |}) []) = [] ++ ext /\
    calls is_close ext = 1%nat.
Proof.
  destruct (generatePdf_propagates_errors (calm [close_event (Some 1)])
              (Str "example.com") "1-abc" Undefined r_undefined r_undefined Undefined
              (r_some {| o_compression := Bool true; o_dpi := Undefined;
                         o_quality := Undefined |}) []
              (Error (exit_message (Some 1))) (fun _ => eq_refl) eq_refl)
    as (ext & Hext & _).
  exists ext. split; [exact Hext|].
  change ([] ++ ext) with ext in Hext. rewrite <- Hext. reflexivity.
Defined.

(** X9.  What Ghostscript is fed: whenever [generatePdf] spawns the child
    process, [pdfOptions] is an object, the arguments carry its [dpi] and
    [quality] after clamping, and the bytes written to the standard input
    are the buffer [page.pdf] has just returned. *)
Theorem generatePdf_feeds_ghostscript_the_rendering :
  forall (w : world) (url : value) (requestId : string) (timeout : value)
         (requests : ref (list rule)) (cookies : ref (list cookie))
         (selector : value) (pdfOptions : ref pdf_options) (t : trace),
  exists ext,
    snd (generatePdf w url requestId timeout requests cookies selector pdfOptions t)
      = t ++ ext /\
    (calls is_spawn ext = 0%nat \/
     exists o pre b post,
       pdfOptions = r_some o /\
       ext = pre
             ++ [ logged (pdf (printing_options timeout)) returned;
                  logged (spawn "gs" (gs_args (used_dpi (o_dpi o))
                                              (used_jpegQuality (o_quality o))))
                         returned;
                  logged (stdin_write b) returned;
                  logged stdin_end returned ]
             ++ post /\
       pdf_reply w (t ++ pre) (printing_options timeout) = Ret b).
Proof.
  intros w url rid timeout requests cookies selector pdfOptions t.
  paths; extension; flatten_all.
  all: first
    [ left; reflexivity
    | right; destruct pdfOptions as [| |o]; try discriminate;
      match goal with
      | H : pdf_reply _ (_ ++ ?pre) _ = Ret ?b |- exists o' pre' b' post', _ /\ ?l = _ /\ _ =>
          exists o, pre, b, (tl (tl (tl (tl (from is_pdf l)))));
          split; [reflexivity|]; split; [reflexivity|exact H]
      end ].
Qed.

(** X10.  What [generatePdf] returns: without compression the buffer
    [page.pdf] returned, with compression the buffer the compression
    resolved with; in both cases [page.close()] was the last call. *)
Theorem generatePdf_returns_rendering_or_compression :
  forall (w : world) (url : value) (requestId : string) (timeout : value)
         (requests : ref (list rule)) (cookies : ref (list cookie))
         (selector : value) (pdfOptions : ref pdf_options) (t : trace) (b : buffer),
    fst (generatePdf w url requestId timeout requests cookies selector pdfOptions t)
      = Ret b ->
    exists ext,
      snd (generatePdf w url requestId timeout requests cookies selector pdfOptions t)
        = t ++ ext /\
      ((wants_compression pdfOptions = false /\
        exists pre,
          ext = pre ++ [ logged (pdf (printing_options timeout)) returned;
                         logged close returned ] /\
          pdf_reply w (t ++ pre) (printing_options timeout) = Ret b) \/
       (wants_compression pdfOptions = true /\
        exists pre,
          ext = pre ++ [logged close returned] /\
          gs_promise (child_events w (t ++ pre)) = Ret b)).
Proof.
  intros w url rid timeout requests cookies selector pdfOptions t b.
  paths; intros Hb; try discriminate Hb; injection Hb as <-; extension; flatten_all.
  all: first
    [ left; split; [reflexivity|];
      match goal with
      | H : pdf_reply _ (_ ++ ?pre) _ = Ret _ |- _ =>
          exists pre; split; [reflexivity|exact H]
      end
    | right; split; [reflexivity|];
      match goal with
      | H : gs_promise (child_events _ (_ ++ ?pre)) = Ret _ |- _ =>
          exists pre; split; [reflexivity|exact H]
      end ].
Qed.

Lemma generatePdf_returns_rendering_or_compression_witness :
  exists ext,
    snd (generatePdf (calm sample_events) (Str "example.com") "1-abc" Undefined
           r_undefined r_undefined Undefined r_null []) = [] ++ ext /\
    calls is_pdf ext = 1%nat.
Proof.
  destruct (generatePdf_returns_rendering_or_compression (calm sample_events)
              (Str "example.com") "1-abc" Undefined r_undefined r_undefined Undefined
              r_null [] pdf_signature eq_refl) as (ext & Hext & _).
  exists ext. split; [exact Hext|].
  change ([] ++ ext) with ext in Hext. rewrite <- Hext. reflexivity.
Defined.

(** X11.  Cookies are installed first.  With a cookie array, even an empty
    one, a call that reaches the selector wait has called
    [page.setCookie] with that array, successfully, right after the page
    was acquired; without one (absent or [null]) [page.setCookie] is never
    called. *)
Theorem generatePdf_installs_cookies_first :
  forall (w : world) (url : value) (requestId : string) (timeout : value)
         (requests : ref (list rule)) (cookies : ref (list cookie))
         (selector : value) (pdfOptions : ref pdf_options) (t : trace),
  exists ext,
    snd (generatePdf w url requestId timeout requests cookies selector pdfOptions t)
      = t ++ ext /\
    (forall cs, cookies = r_some cs ->
       calls is_wait ext = 0%nat \/
       exists rest,
         ext = logged newPage returned :: logged (setCookie cs) returned :: rest /\
         calls is_setCookie rest = 0%nat) /\
    ((forall cs, cookies <> r_some cs) -> calls is_setCookie ext = 0%nat).
Proof.
  intros w url rid timeout requests cookies selector pdfOptions t.
  paths; extension.
  all: split;
    [ intros cs' Hcs;
      first [ discriminate Hcs | injection Hcs as <- | subst cookies ];
      first [ left; reflexivity | right; eexists; split; reflexivity ]
    | intros Hnone; first [ reflexivity | now contradiction (Hnone _ eq_refl) ] ].
Qed.

Lemma generatePdf_installs_cookies_first_witness :
  calls is_wait
    (snd (generatePdf (calm []) (Str "example.com") "1-abc" Undefined r_undefined
            (r_some []) Undefined r_undefined [])) = 0%nat \/
  exists rest,
    snd (generatePdf (calm []) (Str "example.com") "1-abc" Undefined r_undefined
           (r_some []) Undefined r_undefined [])
      = logged newPage returned :: logged (setCookie []) returned :: rest /\
    calls is_setCookie rest = 0%nat.
Proof.
  destruct (generatePdf_installs_cookies_first (calm []) (Str "example.com") "1-abc"
              Undefined r_undefined (r_some []) Undefined r_undefined [])
    as (ext & Hext & H & _).
  change ([] ++ ext) with ext in Hext. rewrite Hext. exact (H [] eq_refl).
Defined.



(** X23.  The URL rule is idempotent and its result always begins with
    http: a URL that has been through it once is left alone. *)
Theorem normalize_url_idempotent :
  forall s : string,
    String.prefix "http" (normalize_url s) = true /\
    normalize_url (normalize_url s) = normalize_url s.
Proof.
  intros s.
  assert (H : String.prefix "http" (normalize_url s) = true).
  { rewrite normalize_url_prefix.
    destruct (String.prefix "http" s) eqn:E; [exact E|reflexivity]. }
  split; [exact H|]. rewrite (normalize_url_prefix (normalize_url s)). now rewrite H.
Qed.

(** ** More on interception *)

Lemma includes_empty (s : string) : includes s "" = true.
Proof. unfold includes, indexOf. destruct s; reflexivity. Qed.

(** X20.  A rule whose [apiUrl] is the empty string matches every request:
    placed first, it answers all of them, the request for the page itself
    included, and the rules after it are never used. *)
Theorem request_listener_empty_apiUrl :
  forall (m : rule) (others : list rule) (req : request),
    apiUrl m = "" ->
    r_isInterceptResolutionHandled req = false ->
    request_listener (m :: others) req =
      respond {| m_status := 200;
                 m_contentType := "application/json; charset=utf-8";
                 m_body := JSON_stringify (apiBody m) |}.
Proof.
  intros m others req Hm Hreq. unfold request_listener. rewrite Hreq.
  cbn [find]. now rewrite Hm, includes_empty.
Qed.

Lemma request_listener_empty_apiUrl_witness :
  request_listener ({| apiUrl := ""; apiBody := j_null |} :: sample_rules)
    {| r_url := "http://example.com/"; r_isInterceptResolutionHandled := false |}
  = respond {| m_status := 200;
               m_contentType := "application/json; charset=utf-8";
               m_body := JSON_stringify j_null |}.
Proof.
  apply (request_listener_empty_apiUrl {| apiUrl := ""; apiBody := j_null |});
    reflexivity.
Defined.

Lemma substring_prefix (m : nat) (s t : string) :
  substring 0 m s = t -> String.length t = m -> exists b, s = (t ++ b)%string.
Proof.
  revert m t. induction s as [|c s IH]; intros m t H Hlen.
  - destruct m; cbn in H; subst t; now exists "".
  - destruct m as [|m]; cbn in H.
    + subst t. now exists (String c s).
    + subst t. cbn in Hlen. injection Hlen as Hlen.
      destruct (IH m _ eq_refl Hlen) as [b Hb]. exists b. cbn. now f_equal.
Qed.

Lemma substring_infix_inv (n m : nat) (s t : string) :
  substring n m s = t -> String.length t = m ->
  exists a b, s = (a ++ t ++ b)%string.
Proof.
  revert n. induction s as [|c s IH]; intros n H Hlen.
  - destruct n, m; cbn in H; subst t; now exists "", "".
  - destruct n as [|n].
    + destruct (substring_prefix _ _ _ H Hlen) as [b Hb]. now exists "", b.
    + cbn in H. destruct (IH n H Hlen) as (a & b & ->).
      now exists (String c a), b.
Qed.

Lemma append_assoc (a b c : string) : ((a ++ b) ++ c = a ++ b ++ c)%string.
Proof. induction a as [|x a IH]; cbn; [reflexivity|now rewrite IH]. Qed.

(** [includes] is the infix relation. *)
Lemma includes_iff (s t : string) :
  includes s t = true <-> exists a b, s = (a ++ t ++ b)%string.
Proof.
  split.
  - unfold includes, indexOf.
    destruct (String.index 0 t s) as [i|] eqn:E; [intros _|discriminate].
    exact (substring_infix_inv _ _ _ _ (index_correct1 _ _ _ _ E) eq_refl).
  - intros (a & b & ->). apply includes_infix.
Qed.

Lemma includes_trans (s t u : string) :
  includes s t = true -> includes t u = true -> includes s u = true.
Proof.
  rewrite !includes_iff. intros (a & b & ->) (c & d & ->).
  exists (a ++ c)%string, (d ++ b)%string. now rewrite !append_assoc.
Qed.

Lemma find_before {A} (f : A -> bool) (pre rest : list A) (m : A) :
  f m = true -> exists x, In x (pre ++ [m]) /\ find f (pre ++ m :: rest) = Some x.
Proof.
  intros Hm. induction pre as [|a pre IH]; cbn [app find].
  - rewrite Hm. exists m. split; [now left|reflexivity].
  - destruct (f a) eqn:Ha.
    + exists a. split; [now left|reflexivity].
    + destruct IH as (x & Hx & Hfind). exists x. split; [now right|exact Hfind].
Qed.

(** X21.  The first match wins, so a rule is dead when its [apiUrl]
    includes the [apiUrl] of an earlier rule: every request it matches is
    answered by that earlier rule or by one before it. *)
Theorem request_listener_shadowed_rule :
  forall (pre rest : list rule) (m1 m2 : rule) (req : request),
    r_isInterceptResolutionHandled req = false ->
    In m2 rest ->
    includes (apiUrl m2) (apiUrl m1) = true ->
    includes (r_url req) (apiUrl m2) = true ->
    exists m,
      In m (pre ++ [m1]) /\
      request_listener (pre ++ m1 :: rest) req =
        respond {| m_status := 200;
                   m_contentType := "application/json; charset=utf-8";
                   m_body := JSON_stringify (apiBody m) |}.
Proof.
  intros pre rest m1 m2 req Hreq _ H12 H2.
  pose proof (includes_trans _ _ _ H2 H12) as H1.
  destruct (find_before (fun r => includes (r_url req) (apiUrl r)) pre rest m1 H1)
    as (m & Hin & Hfind).
  exists m. split; [exact Hin|].
  unfold request_listener. now rewrite Hreq, Hfind.
Qed.

Lemma request_listener_shadowed_rule_witness :
  exists m,
    In m ([] ++ [ {| apiUrl := "/api"; apiBody := j_null |} ]) /\
    request_listener
      ([] ++ {| apiUrl := "/api"; apiBody := j_null |}
          :: [ {| apiUrl := "/api/x"; apiBody := j_bool true |} ])
      {| r_url := "http://host/api/x"; r_isInterceptResolutionHandled := false |}
    = respond {| m_status := 200;
                 m_contentType := "application/json; charset=utf-8";
                 m_body := JSON_stringify (apiBody m) |}.
Proof.
  apply (request_listener_shadowed_rule [] _ _
           {| apiUrl := "/api/x"; apiBody := j_bool true |}).
  - reflexivity.
  - now left.
  - reflexivity.
  - reflexivity.
Defined.

(** ** More on the router *)

(** X13.  [GET /generateReport/:url] renders plainly: it sets no cookie,
    intercepts nothing and never spawns Ghostscript, waits for the selector
    body and navigates with the default timeout of 70000 ms; its answer is
    the PDF with status 200 or the fixed text with status 500.  The calls
    made before the first [page.close()] are an initial segment of: new
    page, selector wait, navigation, rendering, each made once the one
    before has returned; and when every call returns, all four are made, the
    page is closed and the answer is the rendered buffer with status 200. *)
Theorem get_generateReport_renders_plainly :
  forall (w : world) (url requestId : string) (t : trace),
  exists ext,
    snd (get_generateReport w url requestId t) = t ++ ext /\
    calls is_setCookie ext = 0%nat /\
    calls is_interception ext = 0%nat /\
    calls is_spawn ext = 0%nat /\
    (forall selector st, In (logged (waitForSelector selector) st) ext ->
       selector = Str "body") /\
    (forall u options st, In (logged (goto u options) st) ext ->
       u = normalize_url url /\
       options = {| g_timeout := Number (Number_of_Z 70000);
                    g_waitUntil := ["networkidle0"; "domcontentloaded"] |}) /\
    (forall r, fst (get_generateReport w url requestId t) = Ret r ->
       r = {| h_status := 500; h_contentType := None;
              h_body := text "Failed to generate PDF" |} \/
       exists b, r = {| h_status := 200; h_contentType := Some "application/pdf";
                        h_body := bytes b |}) /\
    map what (before is_close ext)
      = firstn (List.length (before is_close ext)) (plain_calls url) /\
    forallb has_returned (removelast (before is_close ext)) = true /\
    (forallb has_returned ext = true ->
     exists b,
       map what ext = plain_calls url ++ [close] /\
       pdf_reply w (t ++ firstn 3 ext)
         {| p_printBackground := true; p_format := "A4"; p_landscape := false;
            p_timeout := Number (Number_of_Z 70000) |} = Ret b /\
       fst (get_generateReport w url requestId t)
         = Ret {| h_status := 200; h_contentType := Some "application/pdf";
                  h_body := bytes b |}).
Proof.
  intros w url rid t.
  unfold get_generateReport, try_catch, bind, ret.
  paths; extension.
  all: try match goal with
       | H : has_requests r_undefined = true |- _ => discriminate H
       | H : wants_compression r_undefined = true |- _ => discriminate H
       end.
  all: split; [reflexivity|]; split; [reflexivity|]; split; [reflexivity|].
  all: split; [|split; [|split; [|split; [reflexivity|split; [reflexivity|]]]]].
  all: try (intros ? ? Hin; unfold logged in Hin; cbn [In] in Hin;
            repeat (destruct Hin as [Hin|Hin];
                    [try discriminate Hin; now inversion Hin|]);
            contradiction).
  all: try (intros ? ? ? Hin; unfold logged in Hin; cbn [In] in Hin;
            repeat (destruct Hin as [Hin|Hin];
                    [try discriminate Hin; now inversion Hin|]);
            contradiction).
  all: try (intros r Hr; try discriminate Hr; injection Hr as <-;
            first [ left; reflexivity | right; eexists; reflexivity ]).
  all: try (intros Hall; discriminate Hall).
  all: intros _; eexists; split; [reflexivity|]; split; [|reflexivity].
  all: cbn [firstn]; flatten;
       match goal with H : pdf_reply _ _ _ = Ret _ |- _ => revert H end;
       flatten; intros H; exact H.
Qed.

Lemma get_generateReport_renders_plainly_witness :
  fst (get_generateReport (calm []) "example.com" "1-abc" [])
  = Ret {| h_status := 200; h_contentType := Some "application/pdf";
           h_body := bytes pdf_signature |}.
Proof.
  destruct (get_generateReport_renders_plainly (calm []) "example.com" "1-abc" [])
    as (ext & Hext & _ & _ & _ & _ & _ & _ & _ & _ & H).
  change ([] ++ ext) with ext in Hext.
  destruct H as (b & _ & Hb & ->).
  - rewrite <- Hext. reflexivity.
  - injection Hb as <-. reflexivity.
Defined.

(** X14.  The answers of [POST /generateReport]: status 400 exactly when
    [url] is falsy (absent, null, false, 0, NaN or the empty string), and
    then nothing was called; otherwise the PDF with status 200 or, whatever
    the error was, the same fixed text with status 500. *)
Theorem post_generateReport_answers :
  forall (w : world) (body : report_body) (requestId : string) (t : trace)
         (r : http_response),
    fst (post_generateReport w body requestId t) = Ret r ->
    (h_status r = 400 <-> ToBoolean (b_url body) = false) /\
    (ToBoolean (b_url body) = false ->
     r = {| h_status := 400; h_contentType := None;
            h_body := text missing_url_message |} /\
     snd (post_generateReport w body requestId t) = t) /\
    (ToBoolean (b_url body) = true ->
     r = {| h_status := 500; h_contentType := None;
            h_body := text "Failed to generate PDF" |} \/
     exists b, r = {| h_status := 200; h_contentType := Some "application/pdf";
                      h_body := bytes b |}).
Proof.
  intros w body rid t r. unfold post_generateReport.
  destruct (ToBoolean (b_url body)) eqn:E; cbn [negb].
  - unfold try_catch, bind, ret.
    destruct (generatePdf _ _ _ _ _ _ _ _ _) as [[b|e|] t1]; cbn [fst];
      intros H; try discriminate H; injection H as <-.
    + split; [split; discriminate|]. split; [discriminate|].
      intros _. right. now exists b.
    + split; [split; discriminate|]. split; [discriminate|].
      intros _. now left.
  - unfold ret. cbn [fst snd]. intros [= <-].
    split; [split; reflexivity|]. split; [|discriminate]. now split.
Qed.

Lemma post_generateReport_answers_witness :
  h_status (send_text 400 missing_url_message) = 400 <->
  ToBoolean (b_url {| b_url := Str ""; b_intercept := r_undefined;
                      b_cookies := r_undefined; b_waitForSelector := Undefined;
                      b_compression := Bool true; b_dpi := Undefined;
                      b_quality := Undefined; b_timeout := Undefined |}) = false.
Proof.
  exact (proj1 (post_generateReport_answers (calm [])
                  {| b_url := Str ""; b_intercept := r_undefined;
                     b_cookies := r_undefined; b_waitForSelector := Undefined;
                     b_compression := Bool true; b_dpi := Undefined;
                     b_quality := Undefined; b_timeout := Undefined |}
                  "1-abc" [] (send_text 400 missing_url_message) eq_refl)).
Defined.

(** X15.  An answered [POST /generateReport] leaks no page: when
    [page.close()] resolves and a page was acquired, every answer to a
    request with a truthy [url], status 200 or 500, comes after exactly one
    [page.close()], which is the last call made. *)
Theorem post_generateReport_closes_page_before_answering :
  forall (w : world) (body : report_body) (requestId : string) (t : trace)
         (r : http_response),
    (forall t', page_reply w t' close = Ret tt) ->
    page_reply w t newPage = Ret tt ->
    ToBoolean (b_url body) = true ->
    fst (post_generateReport w body requestId t) = Ret r ->
    exists calls_made,
      snd (post_generateReport w body requestId t)
        = t ++ calls_made ++ [logged close returned] /\
      closes calls_made = 0%nat.
Proof.
  intros w body rid t r Hclose Hnew Hurl.
  unfold post_generateReport. rewrite Hurl. cbn [negb].
  unfold try_catch, bind, ret.
  destruct body as [url intercept cookies selector compression dpi quality timeout].
  cbn [b_url b_intercept b_cookies b_waitForSelector b_compression b_dpi b_quality
       b_timeout].
  paths; intros Hr; try discriminate Hr.
  all: match goal with
       | |- exists made, ?t ++ ?l = _ /\ _ =>
           exists (removelast l); split; reflexivity
       end.
Qed.

Lemma post_generateReport_closes_page_before_answering_witness :
  exists calls_made,
    snd (post_generateReport (calm sample_events)
           {| b_url := Str "example.com"; b_intercept := r_undefined;
              b_cookies := r_undefined; b_waitForSelector := Undefined;
              b_compression := Bool true; b_dpi := Undefined;
              b_quality := Undefined; b_timeout := Undefined |} "1-abc" [])
      = [] ++ calls_made ++ [logged close returned] /\
    closes calls_made = 0%nat.
Proof.
  apply (post_generateReport_closes_page_before_answering (calm sample_events) _
           "1-abc" [] (send_pdf pdf_signature)); reflexivity.
Defined.

(** X19.  [POST /generateReport] spawns Ghostscript only for a body whose
    [compression] is loosely equal to [true], and then with the [dpi] and
    [quality] of the body after clamping (150 and 95 when absent). *)
Theorem post_generateReport_forwards_compression_settings :
  forall (w : world) (body : report_body) (requestId : string) (t : trace),
  exists ext,
    snd (post_generateReport w body requestId t) = t ++ ext /\
    (calls is_spawn ext = 0%nat \/
     (loose_eq (b_compression body) (Bool true) = true /\
      exists pre rest,
        ext = pre
              ++ [ logged (spawn "gs" (gs_args (used_dpi (b_dpi body))
                                               (used_jpegQuality (b_quality body))))
                          returned ]
              ++ rest)).
Proof.
  intros w body rid t. unfold post_generateReport.
  destruct body as [url intercept cookies selector compression dpi quality timeout].
  cbn [b_url b_intercept b_cookies b_waitForSelector b_compression b_dpi b_quality
       b_timeout].
  destruct (ToBoolean url); cbn [negb].
  - unfold try_catch, bind, ret. paths; extension.
    all: first
      [ left; reflexivity
      | right; split; [assumption|];
        match goal with
        | |- exists pre rest, ?l = _ =>
            exists (before is_spawn l), (tl (from is_spawn l)); reflexivity
        end ].
  - exists []. split; [now rewrite app_nil_r|]. now left.
Qed.

Lemma generatePdf_without_compression
    (w : world) (url : value) (requestId : string) (timeout : value)
    (requests : ref (list rule)) (cookies : ref (list cookie))
    (selector : value) (p p' : ref pdf_options) (t : trace) :
  wants_compression p = false -> wants_compression p' = false ->
  generatePdf w url requestId timeout requests cookies selector p t
  = generatePdf w url requestId timeout requests cookies selector p' t.
Proof.
  intros H H'. unfold generatePdf. now rewrite H, H'.
Qed.

(** X24.  [GET /generateReport/:url] is [POST /generateReport] with a body
    that holds the [url] only: for a non-empty [url] both make the same
    calls and give the same answer. *)
Theorem get_generateReport_is_post_with_url_only :
  forall (w : world) (url requestId : string) (t : trace),
    url <> "" ->
    get_generateReport w url requestId t
    = post_generateReport w
        {| b_url := Str url; b_intercept := r_undefined; b_cookies := r_undefined;
           b_waitForSelector := Undefined; b_compression := Undefined;
           b_dpi := Undefined; b_quality := Undefined; b_timeout := Undefined |}
        requestId t.
Proof.
  intros w url rid t Hurl.
  unfold get_generateReport, post_generateReport.
  cbn [b_url b_intercept b_cookies b_waitForSelector b_compression b_dpi b_quality
       b_timeout].
  destruct url as [|c url]; [congruence|]. cbn [ToBoolean negb].
  unfold try_catch, bind.
  now rewrite (generatePdf_without_compression w (Str (String c url)) rid Undefined
                 r_undefined r_undefined Undefined r_undefined
                 (r_some {| o_compression := Undefined; o_dpi := Undefined;
                            o_quality := Undefined |}) t eq_refl eq_refl).
Qed.

Lemma get_generateReport_is_post_with_url_only_witness :
  get_generateReport (calm []) "example.com" "1-abc" []
  = post_generateReport (calm [])
      {| b_url := Str "example.com"; b_intercept := r_undefined;
         b_cookies := r_undefined; b_waitForSelector := Undefined;
         b_compression := Undefined; b_dpi := Undefined; b_quality := Undefined;
         b_timeout := Undefined |}
      "1-abc" [].
Proof. apply get_generateReport_is_post_with_url_only. discriminate. Defined.



Lemma in_Z_below (n z : Z) : 0 <= z < n -> In z (Z_below n).
Proof.
  intros H. unfold Z_below. apply in_map_iff. exists (Z.to_nat z). split.
  - apply Z2Nat.id. lia.
  - apply in_seq. lia.
Qed.

(** X17.  A resolution written in decimal in the path reaches Ghostscript
    clamped: for every integer n from 0 to 10000, the segment made of the
    decimal digits of n gives the resolution max(10, min(600, n)). *)
Theorem post_compressPdf_decimal_dpi :
  forall (n : Z) (w : world) (chunks : list buffer) (requestId : string) (t : trace),
    0 <= n <= 10000 ->
    Buffer_concat chunks <> [] ->
    snd (post_compressPdf w (Z_toString n) chunks requestId t)
      = t ++ [ logged (spawn "gs"
                         (gs_args (Number_of_Z (Z.max 10 (Z.min 600 n)))
                                  (Number_of_Z 95))) returned;
               logged (stdin_write (Buffer_concat chunks)) returned;
               logged stdin_end returned ].
Proof.
  intros n w chunks rid t Hn H.
  rewrite (post_compressPdf_eq _ _ _ _ _ H). cbn [snd spawn_entries]. fold n95.
  assert (Hall : forallb (fun z =>
                   is_finite_nonzero (Number_of_Z (Z.max 10 (Z.min 600 z))) &&
                   SFeqb (used_dpi (Number (parseInt (Z_toString z) 10)))
                         (Number_of_Z (Z.max 10 (Z.min 600 z))))
                 (Z_below 10001) = true) by (vm_compute; reflexivity).
  rewrite forallb_forall in Hall.
  specialize (Hall n (in_Z_below 10001 n ltac:(lia))).
  apply andb_true_iff in Hall as [Hfin Heq].
  destruct (Number_of_Z (Z.max 10 (Z.min 600 n))) as [| | |s m e] eqn:E;
    try discriminate Hfin.
  unfold SFeqb in Heq.
  destruct (SFcompare (used_dpi (Number (parseInt (Z_toString n) 10)))
                      (S754_finite s m e)) as [[]|] eqn:C; try discriminate Heq.
  now rewrite (SFcompare_Eq_eq _ _ _ _ C).
Qed.

Lemma post_compressPdf_decimal_dpi_witness :
  snd (post_compressPdf (calm sample_events) (Z_toString 7000) [pdf_signature]
         "1-abc" [])
    = [] ++ [ logged (spawn "gs"
                        (gs_args (Number_of_Z (Z.max 10 (Z.min 600 7000)))
                                 (Number_of_Z 95))) returned;
              logged (stdin_write (Buffer_concat [pdf_signature])) returned;
              logged stdin_end returned ].
Proof.
  apply post_compressPdf_decimal_dpi; [lia|discriminate].
Defined.

(** ** The request id *)

Lemma substring_length_le (n m : nat) (s : string) :
  (String.length (substring n m s) <= m)%nat.
Proof.
  revert n m. induction s as [|c s IH]; intros n m.
  - destruct n, m; cbn; lia.
  - destruct n as [|n].
    + destruct m as [|m]; cbn; [lia|]. specialize (IH 0%nat m). lia.
    + cbn. apply IH.
Qed.

Lemma append_length (a b : string) :
  String.length (a ++ b)%string = (String.length a + String.length b)%nat.
Proof. induction a as [|c a IH]; cbn; [reflexivity|now rewrite IH]. Qed.

(** X18.  A request id is short: with the milliseconds of the clock in
    0..999, it has at most 11 characters, of which at most 7, those after
    the dash, come from the random source; whatever follows the ninth
    character of the random text is ignored. *)
Theorem generateRequestId_is_short :
  forall (milliseconds : Z) (random36 : string),
    0 <= milliseconds <= 999 ->
    (String.length (generateRequestId milliseconds random36) <= 11)%nat /\
    (String.length (slice random36 2 9) <= 7)%nat /\
    generateRequestId milliseconds random36
      = (Z_toString milliseconds ++ "-" ++ substring 2 7 random36)%string.
Proof.
  intros ms r Hms.
  assert (Hslice : slice r 2 9 = substring 2 7 r).
  { unfold slice. change (2 <? 0) with false. change (9 <? 0) with false. cbv iota zeta.
    set (len := String.length r).
    destruct (Z.le_gt_cases (Z.of_nat len) 2) as [Hl|Hl].
    - rewrite (Z.min_r 2), (Z.min_r 9) by lia.
      replace (Z.to_nat (Z.max (Z.of_nat len - Z.of_nat len) 0)) with 0%nat by lia.
      rewrite Nat2Z.id.
      assert (Hs : forall (s : string) n m,
                 (String.length s <= n)%nat -> substring n m s = ""%string).
      { induction s as [|c s IH]; intros n m Hlen.
        - destruct n, m; reflexivity.
        - destruct n as [|n]; cbn in Hlen; [lia|]. cbn. apply IH. lia. }
      rewrite !Hs by (subst len; lia). reflexivity.
    - rewrite (Z.min_l 2) by lia. change (Z.to_nat 2) with 2%nat.
      destruct (Z.le_gt_cases 9 (Z.of_nat len)) as [H9|H9].
      + rewrite (Z.min_l 9) by lia. reflexivity.
      + rewrite (Z.min_r 9) by lia.
        replace (Z.to_nat (Z.max (Z.of_nat len - 2) 0)) with (len - 2)%nat by lia.
        assert (Hs : forall (s : string) n m k,
                   (String.length s <= n + m)%nat -> (m <= k)%nat ->
                   substring n m s = substring n k s).
        { induction s as [|c s IH]; intros n m k Hlen Hk.
          - destruct n, m, k; reflexivity.
          - destruct n as [|n]; cbn in Hlen.
            + destruct m as [|m]; [lia|]. destruct k as [|k]; [lia|].
              cbn. f_equal. apply (IH 0%nat); lia.
            + cbn. apply IH; lia. }
        apply Hs; subst len; lia. }
  assert (Hdigits : (String.length (Z_toString ms) <= 3)%nat).
  { assert (Hall : forallb (fun z => Nat.leb (String.length (Z_toString z)) 3)
                     (Z_below 1000) = true) by (vm_compute; reflexivity).
    rewrite forallb_forall in Hall.
    apply Nat.leb_le, Hall, in_Z_below. lia. }
  pose proof (substring_length_le 2 7 r) as Htoken.
  unfold generateRequestId. rewrite Hslice. repeat split; [|exact Htoken].
  rewrite !append_length. cbn [String.length]. lia.
Qed.

Lemma generateRequestId_is_short_witness :
  (String.length (generateRequestId 7 "0.4fzyo82mvyr") <= 11)%nat /\
  (String.length (slice "0.4fzyo82mvyr" 2 9) <= 7)%nat /\
  generateRequestId 7 "0.4fzyo82mvyr"
    = (Z_toString 7 ++ "-" ++ substring 2 7 "0.4fzyo82mvyr")%string.
Proof. apply generateRequestId_is_short. lia. Defined.

Example generateRequestId_examples :
  generateRequestId 7 "0.4fzyo82mvyr" = "7-4fzyo82" /\
  generateRequestId 999 "0.5" = "999-5" /\
  generateRequestId 0 "0" = "0-".
Proof. repeat split; reflexivity. Qed.
